(** * Counterfeit detection service of the product-authentication backend

    A shallow embedding of
    [backend/app/services/counterfeit_detection_service.py] and of the two
    endpoints of [backend/app/api/v1/endpoints/verifications.py] that
    consult the ledger after it, followed by the properties of the
    detection verdict.

    Conventions of the embedding.
    - A Python [str] is a [string]; [len] is [String.length] and
      [str.lower] folds the letters A-Z.
    - A value that may be [None] is an [option]; Python truthiness is
      written out ([truthy_str], [truthy_int]).  A nullable Boolean column
      is a [bool] whose [false] also stands for NULL: every use in the
      source ([not x], [column == True]) treats the two alike.
    - A naive [datetime] is a [Z], the number of microseconds since the
      epoch; a [timedelta] is a [Z] number of microseconds.
    - A Python [float] is a rational [Q].  The scores are sums and
      differences of a few two-decimal literals, compared with two-decimal
      literals after [round(_, 2)]; the binary rounding error of these
      operations is below 1e-15 and never reaches a comparison or rounding
      threshold, so the exact decimal value is the value Python prints.
    - A raised exception is [inl msg] in the monad [exc], where [msg] is
      [str(e)]; [try/except Exception] is [catch]. *)

From Stdlib Require Import String Ascii List ZArith QArith Qround Bool Lia Lqa.
From Stdlib Require Import DecimalString.
Import ListNotations.

Local Open Scope string_scope.
Local Open Scope list_scope.

(** ** Python primitives *)

(** [not s] is false for a non-empty string only. *)
Definition truthy_str (s : option string) : bool :=
  match s with
  | Some s => negb (String.eqb s "")
  | None => false
  end.

(** [not n] is false for a non-zero integer only. *)
Definition truthy_int (n : option Z) : bool :=
  match n with
  | Some n => negb (Z.eqb n 0)
  | None => false
  end.

(** [a == b] on values that may be [None]. *)
Definition eqb_opt_str (a b : option string) : bool :=
  match a, b with
  | Some x, Some y => String.eqb x y
  | None, None => true
  | _, _ => false
  end.

(** [str(n)] for a non-negative integer. *)
Definition str_of_nat (n : nat) : string :=
  NilEmpty.string_of_uint (Nat.to_uint n).

(** [str(x)] for a value that may be [None]. *)
Definition str_of_opt (s : option string) : string :=
  match s with
  | Some s => s
  | None => "None"
  end.

Definition lower_ascii (c : ascii) : ascii :=
  let n := nat_of_ascii c in
  if (65 <=? n)%nat && (n <=? 90)%nat then ascii_of_nat (n + 32) else c.

(** [s.lower()] *)
Fixpoint lower (s : string) : string :=
  match s with
  | EmptyString => EmptyString
  | String c s' => String (lower_ascii c) (lower s')
  end.

(** [word in s] *)
Fixpoint contains (word s : string) : bool :=
  String.prefix word s ||
  match s with
  | EmptyString => false
  | String _ s' => contains word s'
  end.

(** [max(a, b)]: the first argument unless the second is greater. *)
Definition py_max (a b : Q) : Q :=
  if Qlt_le_dec a b then b else a.

(** Rounding of a rational to the nearest integer, ties to even. *)
Definition round_half_even (x : Q) : Z :=
  let f := Qfloor x in
  match Qcompare (x - inject_Z f) (1 # 2) with
  | Lt => f
  | Gt => (f + 1)%Z
  | Eq => if Z.even f then f else (f + 1)%Z
  end.

(** [round(x, 2)] *)
Definition round2 (x : Q) : Q :=
  round_half_even (x * 100) # 100.

(** [sum(...)] over floats. *)
Definition sumQ (l : list Q) : Q :=
  fold_left Qplus l 0.

(** [timedelta(days=n)] in microseconds. *)
Definition timedelta_days (n : Z) : Z :=
  (n * 86400 * 1000000)%Z.

(** ** Exceptions *)

Definition exc (A : Type) : Type := (string + A)%type.

Definition ret {A} (a : A) : exc A := inr a.

Definition raise {A} (msg : string) : exc A := inl msg.

Definition bind {A B} (m : exc A) (k : A -> exc B) : exc B :=
  match m with
  | inl e => inl e
  | inr a => k a
  end.

(** [try: m  except Exception as e: handler(str(e))] *)
Definition catch {A} (m : exc A) (handler : string -> A) : A :=
  match m with
  | inl e => handler e
  | inr a => a
  end.

Declare Scope exc_scope.
Delimit Scope exc_scope with exc.
Notation "x <- m ;; k" := (bind m (fun x => k))
  (at level 61, m at next level, right associativity) : exc_scope.
Local Open Scope exc_scope.

(** Concatenation of strings, as in an f-string. *)
Local Infix "+++" := String.append (at level 60, right associativity).

(** ** Data model ([app/models]) *)

Module Product.
Record t := mk {
    id : Z;
    blockchain_id : option Z;
    product_name : option string;
    product_description : option string;
    manufacturing_date : option Z;
    batch_number : option string;
    qr_code_hash : option string;
    ipfs_hash : option string;
    swarm_hash : option string;
    manufacturer_id : Z;
    is_active : bool
}.
End Product.

Module User.
Record t := mk {
    id : Z;
    email : string;
    wallet_address : option string;
    is_active : bool;
    is_verified : bool
}.
End User.

Module Verification.
Record t := mk {
    product_id : Z;
    verifier_id : Z;
    location : option string;
    is_authentic : bool;
    notes : option string;
    verification_date : option Z;
    detection_reasons : list string;
    confidence_score : option Q;
    risk_level : option string;
    blockchain_verified : bool;
    blockchain_verification_id : option Z
}.
End Verification.

(** The statements of the service and of the endpoints that go to the
    database. *)
Inductive Query : Type :=
| DuplicateQrCount
| DuplicateBatchAll
| RecentVerificationsAll
| ManufacturerFirst
| ProductFirst
| VerificationHistoryAll
| CommitVerification
| CommitLedger
| RefreshAfterRollback.

(** The database session: the three tables the service reads, and which of
    the statements fail ([raises q = Some msg]: the call raises an exception
    whose text is [msg]). *)
Record Session := {
  products : list Product.t;
  users : list User.t;
  verifications : list Verification.t;
  raises : Query -> option string
}.

(** Running a query: the exception if the session raises, else the rows. *)
Definition run {A} (db : Session) (q : Query) (rows : A) : exc A :=
  match raises db q with
  | Some msg => raise msg
  | None => ret rows
  end.

(** The places where the service reads the clock.  Each is reached at most
    once in a call of [detect_counterfeit], so a reading per place is the
    sequence of readings of that call. *)
Inductive ClockRead : Type :=
| AtPatternWindow
| AtFutureCheck
| AtAgeCheck.

(** What [IPFSService.retrieve_product_data] answers: a dict with the keys
    [success], [error] and [product_data]; of the latter only the keys
    [product_name] and [batch_number] are read. *)
Record IpfsResult := {
  success : bool;
  error : option string;
  ipfs_product_name : option string;
  ipfs_batch_number : option string
}.

(** The surroundings of a call: the clock, the clock of the database
    server, the content store and the rendering of a rate by the format
    [.1%]. *)
Record World := {
  utcnow : ClockRead -> Z;
  server_now : Z;
  retrieve_product_data : string -> exc IpfsResult;
  format_percent : Q -> string
}.

(** The [verification_data] dict built by the endpoints. *)
Record VerificationData := {
  vd_location : option string;
  vd_notes : option string;
  vd_verifier_id : Z
}.

(** ** The detection service ([CounterfeitDetectionService]) *)

(** The dicts the validators return. *)
Record Validation := {
  is_valid : bool;
  reasons : list string
}.

Record DuplicateCheck := {
  has_duplicates : bool;
  duplicate_reasons : list string
}.

Record PatternAnalysis := {
  suspicious_pattern : bool;
  pattern_reasons : list string
}.

Record ConsistencyCheck := {
  is_consistent : bool;
  consistency_reasons : list string
}.

(** The dict [detect_counterfeit] returns. *)
Record DetectionResult := {
  is_authentic : bool;
  detection_reasons : list string;
  confidence_score : Q;
  risk_level : string;
  risk_factors : list string;
  validation_summary : list (string * bool)
}.

(** [len(s)], reached with a string only; the string behind a value known
    not to be [None]. *)
Definition the (s : option string) : string :=
  match s with
  | Some s => s
  | None => ""
  end.

Definition len (s : option string) : nat := String.length (the s).

Definition Qltb (a b : Q) : bool := negb (Qle_bool b a).

(** The rows of the query of [_validate_qr_code]:
    [Product.qr_code_hash == product.qr_code_hash, Product.id != product.id]. *)
Definition same_qr_other_id (product q : Product.t) : bool :=
  eqb_opt_str (Product.qr_code_hash q) (Product.qr_code_hash product)
  && negb (Product.id q =? Product.id product)%Z.

Definition _validate_qr_code (db : Session) (product : Product.t)
    (provided_qr_hash : option string) : exc Validation :=
  let reasons := [] in
  let is_valid := true in
  if negb (truthy_str (Product.qr_code_hash product))
     || negb (len (Product.qr_code_hash product) =? 64)%nat
  then
    let is_valid := false in
    let reasons := reasons ++ ["Invalid QR code hash format - possible counterfeit"] in
    ret {| is_valid := is_valid; reasons := reasons |}
  else
    let reasons := reasons ++ ["QR code hash format is valid"] in
    let '(is_valid, reasons) :=
      if truthy_str provided_qr_hash then
        if negb (eqb_opt_str (Product.qr_code_hash product) provided_qr_hash)
        then (false, reasons ++ ["QR code hash mismatch - possible counterfeit"])
        else (is_valid, reasons ++ ["QR code hash matches stored value"])
      else (is_valid, reasons) in
    duplicate_count <-
      run db DuplicateQrCount
        (List.length (filter (same_qr_other_id product) (products db))) ;;
    let '(is_valid, reasons) :=
      if (0 <? duplicate_count)%nat
      then (false,
            reasons ++ ["Duplicate QR code detected on " +++ str_of_nat duplicate_count
                        +++ " other products - counterfeit"])
      else (is_valid, reasons ++ ["QR code is unique - no duplicates found"]) in
    ret {| is_valid := is_valid; reasons := reasons |}.

Definition _validate_ipfs_data (w : World) (product : Product.t) : Validation :=
  let reasons := [] in
  let is_valid := true in
  if negb (truthy_str (Product.ipfs_hash product)) then
    let reasons := reasons ++ ["No IPFS data available - limited verification"] in
    {| is_valid := true; reasons := reasons |}
  else
    catch
      (ipfs_result <- retrieve_product_data w (the (Product.ipfs_hash product)) ;;
       if negb (success ipfs_result) then
         ret {| is_valid := false;
                reasons := reasons ++ ["IPFS data retrieval failed: "
                                       +++ str_of_opt (error ipfs_result)] |}
       else if negb (eqb_opt_str (ipfs_product_name ipfs_result)
                                 (Product.product_name product)) then
         ret {| is_valid := false;
                reasons := reasons ++ ["IPFS data product name mismatch"] |}
       else if negb (eqb_opt_str (ipfs_batch_number ipfs_result)
                                 (Product.batch_number product)) then
         ret {| is_valid := false;
                reasons := reasons ++ ["IPFS data batch number mismatch"] |}
       else
         ret {| is_valid := is_valid;
                reasons := reasons ++ ["IPFS data integrity verified"] |})
      (fun e =>
         {| is_valid := false;
            reasons := reasons ++ ["IPFS validation error: " +++ e] |}).

Definition _validate_blockchain_data (product : Product.t) : Validation :=
  let reasons := [] in
  let is_valid := true in
  if negb (truthy_int (Product.blockchain_id product)) then
    let reasons := reasons ++ ["Product not registered on blockchain"] in
    {| is_valid := false; reasons := reasons |}
  else
    let reasons := reasons ++ ["Product registered on blockchain"] in
    {| is_valid := is_valid; reasons := reasons |}.

(** The rows of the query of [_check_duplicates]. *)
Definition same_batch_other_id (product q : Product.t) : bool :=
  eqb_opt_str (Product.batch_number q) (Product.batch_number product)
  && (Product.manufacturer_id q =? Product.manufacturer_id product)%Z
  && negb (Product.id q =? Product.id product)%Z
  && Product.is_active q.

Definition _check_duplicates (db : Session) (product : Product.t)
    : exc DuplicateCheck :=
  let reasons := [] in
  let has_duplicates := false in
  duplicate_products <-
    run db DuplicateBatchAll (filter (same_batch_other_id product) (products db)) ;;
  match duplicate_products with
  | _ :: _ =>
      ret {| has_duplicates := true;
             duplicate_reasons :=
               reasons ++ ["Found " +++ str_of_nat (List.length duplicate_products)
                           +++ " products with same batch number from same manufacturer"] |}
  | [] =>
      ret {| has_duplicates := has_duplicates;
             duplicate_reasons :=
               reasons ++ ["No duplicate products found with same batch number"] |}
  end.

(** The rows of the query of [_analyze_verification_patterns]; a NULL date
    compares to nothing. *)
Definition recent_for (w : World) (product : Product.t) (v : Verification.t) : bool :=
  (Verification.product_id v =? Product.id product)%Z
  && match Verification.verification_date v with
     | Some d => (utcnow w AtPatternWindow - timedelta_days 30 <=? d)%Z
     | None => false
     end.

Definition _analyze_verification_patterns (w : World) (db : Session)
    (product : Product.t) : exc PatternAnalysis :=
  let reasons := [] in
  let suspicious_pattern := false in
  recent_verifications <-
    run db RecentVerificationsAll (filter (recent_for w product) (verifications db)) ;;
  let total_verifications := List.length recent_verifications in
  let counterfeit_verifications :=
    List.length (filter (fun v => negb (Verification.is_authentic v))
                        recent_verifications) in
  let '(suspicious_pattern, reasons) :=
    if (20 <? total_verifications)%nat then
      (true, reasons ++ ["Excessive verification attempts: "
                         +++ str_of_nat total_verifications +++ " in 30 days"])
    else if (10 <? total_verifications)%nat then
      (suspicious_pattern,
       reasons ++ ["High verification frequency: "
                   +++ str_of_nat total_verifications +++ " in 30 days"])
    else
      (suspicious_pattern,
       reasons ++ ["Normal verification pattern: "
                   +++ str_of_nat total_verifications +++ " in 30 days"]) in
  let '(suspicious_pattern, reasons) :=
    if (0 <? total_verifications)%nat then
      let counterfeit_rate :=
        (inject_Z (Z.of_nat counterfeit_verifications)
         / inject_Z (Z.of_nat total_verifications))%Q in
      if Qltb 0.5 counterfeit_rate then
        (true, reasons ++ ["High counterfeit detection rate: "
                           +++ format_percent w counterfeit_rate])
      else if Qltb 0.2 counterfeit_rate then
        (suspicious_pattern,
         reasons ++ ["Moderate counterfeit detection rate: "
                     +++ format_percent w counterfeit_rate])
      else
        (suspicious_pattern,
         reasons ++ ["Low counterfeit detection rate: "
                     +++ format_percent w counterfeit_rate])
    else (suspicious_pattern, reasons) in
  ret {| suspicious_pattern := suspicious_pattern; pattern_reasons := reasons |}.

Definition _validate_manufacturer (db : Session) (product : Product.t)
    : exc Validation :=
  let reasons := [] in
  let is_valid := true in
  manufacturer <-
    run db ManufacturerFirst
      (find (fun u => (User.id u =? Product.manufacturer_id product)%Z) (users db)) ;;
  match manufacturer with
  | None =>
      ret {| is_valid := false;
             reasons := reasons ++ ["Manufacturer not found in database"] |}
  | Some manufacturer =>
      if negb (User.is_active manufacturer) then
        ret {| is_valid := false;
               reasons := reasons ++ ["Manufacturer account is inactive"] |}
      else if negb (User.is_verified manufacturer) then
        ret {| is_valid := is_valid;
               reasons := reasons ++ ["Manufacturer account is not verified"] |}
      else
        ret {| is_valid := is_valid;
               reasons := reasons ++ ["Manufacturer account is valid and verified"] |}
  end.

Definition _check_data_consistency (w : World) (product : Product.t)
    (verification_data : VerificationData) : ConsistencyCheck :=
  let reasons := [] in
  let is_consistent := true in
  let '(is_consistent, reasons) :=
    if negb (truthy_str (Product.product_name product))
       || negb (truthy_str (Product.batch_number product))
    then (false, reasons ++ ["Missing required product information"])
    else (is_consistent, reasons ++ ["Product information is complete"]) in
  let '(is_consistent, reasons) :=
    match Product.manufacturing_date product with
    | Some manufacturing_date =>
        if (utcnow w AtFutureCheck <? manufacturing_date)%Z then
          (false, reasons ++ ["Manufacturing date is in the future"])
        else if (manufacturing_date
                 <? utcnow w AtAgeCheck - timedelta_days (365 * 10))%Z then
          (is_consistent, reasons ++ ["Product is very old - verify authenticity"])
        else
          (is_consistent, reasons ++ ["Manufacturing date is reasonable"])
    | None => (is_consistent, reasons)
    end in
  {| is_consistent := is_consistent; consistency_reasons := reasons |}.

Definition penalties : list (string * Q) :=
  [ ("qr_invalid", 0.4);
    ("swarm_invalid", 0.3);
    ("blockchain_invalid", 0.2);
    ("duplicate_detected", 0.5);
    ("suspicious_pattern", 0.3);
    ("manufacturer_invalid", 0.2);
    ("data_inconsistent", 0.2);
    ("detection_error", 0.5) ]%Q.

(** [d.get(key, default)] *)
Fixpoint get (d : list (string * Q)) (key : string) (default : Q) : Q :=
  match d with
  | [] => default
  | (k, v) :: d' => if String.eqb k key then v else get d' key default
  end.

(** The reasons counted as warnings. *)
Definition is_warning (r : string) : bool :=
  existsb (fun word => contains word (lower r)) ["warning"; "limited"; "old"; "high"].

Definition _calculate_confidence_score (is_authentic : bool)
    (risk_factors detection_reasons : list string) : Q :=
  if negb is_authentic then 0.0
  else
    let base_score := 0.9 in
    let total_penalty := sumQ (map (fun factor => get penalties factor 0.1) risk_factors) in
    let warning_count := List.length (filter is_warning detection_reasons) in
    let warning_penalty := inject_Z (Z.of_nat warning_count) * 0.05 in
    let final_score := py_max 0.0 (base_score - total_penalty - warning_penalty) in
    round2 final_score.

Definition _calculate_risk_level (risk_factors : list string) (confidence_score : Q)
    : string :=
  if Qltb confidence_score 0.3 then "high"
  else if Qltb confidence_score 0.7 then "medium"
  else "low".

(** The body of the [try] of [detect_counterfeit]. *)
Definition detect_counterfeit_try (w : World) (db : Session) (product : Product.t)
    (verification_data : VerificationData) (provided_qr_hash : option string)
    : exc DetectionResult :=
  let detection_reasons := [] in
  let risk_factors := [] in
  let is_authentic := true in
  (* 1. QR Code Validation *)
  qr_validation <- _validate_qr_code db product provided_qr_hash ;;
  let detection_reasons := detection_reasons ++ reasons qr_validation in
  let '(is_authentic, risk_factors) :=
    if negb (is_valid qr_validation)
    then (false, risk_factors ++ ["qr_invalid"])
    else (is_authentic, risk_factors) in
  (* 2. IPFS Data Integrity Check *)
  let ipfs_validation := _validate_ipfs_data w product in
  let detection_reasons := detection_reasons ++ reasons ipfs_validation in
  let '(is_authentic, risk_factors) :=
    if negb (is_valid ipfs_validation)
    then (false, risk_factors ++ ["ipfs_invalid"])
    else (is_authentic, risk_factors) in
  (* 3. Blockchain Verification *)
  let blockchain_validation := _validate_blockchain_data product in
  let detection_reasons := detection_reasons ++ reasons blockchain_validation in
  let risk_factors :=
    if negb (is_valid blockchain_validation)
    then risk_factors ++ ["blockchain_invalid"]
    else risk_factors in
  (* 4. Duplicate Detection *)
  duplicate_check <- _check_duplicates db product ;;
  let detection_reasons := detection_reasons ++ duplicate_reasons duplicate_check in
  let '(is_authentic, risk_factors) :=
    if has_duplicates duplicate_check
    then (false, risk_factors ++ ["duplicate_detected"])
    else (is_authentic, risk_factors) in
  (* 5. Verification Pattern Analysis *)
  pattern_analysis <- _analyze_verification_patterns w db product ;;
  let detection_reasons := detection_reasons ++ pattern_reasons pattern_analysis in
  let risk_factors :=
    if suspicious_pattern pattern_analysis
    then risk_factors ++ ["suspicious_pattern"]
    else risk_factors in
  (* 6. Manufacturer Validation *)
  manufacturer_validation <- _validate_manufacturer db product ;;
  let detection_reasons := detection_reasons ++ reasons manufacturer_validation in
  let risk_factors :=
    if negb (is_valid manufacturer_validation)
    then risk_factors ++ ["manufacturer_invalid"]
    else risk_factors in
  (* 7. Product Data Consistency *)
  let consistency_check := _check_data_consistency w product verification_data in
  let detection_reasons := detection_reasons ++ consistency_reasons consistency_check in
  let risk_factors :=
    if negb (is_consistent consistency_check)
    then risk_factors ++ ["data_inconsistent"]
    else risk_factors in
  (* Calculate confidence score and risk level *)
  let confidence_score :=
    _calculate_confidence_score is_authentic risk_factors detection_reasons in
  let risk_level := _calculate_risk_level risk_factors confidence_score in
  ret {| is_authentic := is_authentic;
         detection_reasons := detection_reasons;
         confidence_score := confidence_score;
         risk_level := risk_level;
         risk_factors := risk_factors;
         validation_summary :=
           [ ("qr_valid", is_valid qr_validation);
             ("blockchain_valid", is_valid blockchain_validation);
             ("no_duplicates", negb (has_duplicates duplicate_check));
             ("normal_pattern", negb (suspicious_pattern pattern_analysis));
             ("manufacturer_valid", is_valid manufacturer_validation);
             ("data_consistent", is_consistent consistency_check) ] |}.

(** The verdict of the [except Exception as e] of [detect_counterfeit]. *)
Definition detection_error (e : string) : DetectionResult :=
  {| is_authentic := false;
     detection_reasons := ["Detection error: " +++ e];
     confidence_score := 0.0;
     risk_level := "high";
     risk_factors := ["detection_error"];
     validation_summary := [] |}.

Definition detect_counterfeit (w : World) (db : Session) (product : Product.t)
    (verification_data : VerificationData) (provided_qr_hash : option string)
    : DetectionResult :=
  catch (detect_counterfeit_try w db product verification_data provided_qr_hash)
        detection_error.


(** ** The endpoints and their ledger step ([endpoints/verifications.py]) *)

Module VerificationCreate.
Record t := mk {
    location : string;
    notes : option string;
    product_id : Z;
    qr_code_hash : option string
}.
End VerificationCreate.

(** The dict [BlockchainService.verify_product] returns; [None] is an
    absent key. *)
Record BlockchainResult := {
  bc_success : option bool;
  bc_verification_result : option bool;
  bc_verification_id : option Z;
  bc_transaction_hash : option string;
  bc_block_number : option Z
}.

(** [BlockchainService.verify_product(product_id, location, notes,
    wallet_address, private_key, qr_code_hash)] *)
Record BlockchainService := {
  verify_product :
    Z -> string -> string -> string -> string -> option string -> exc BlockchainResult
}.

Definition private_key : string :=
  "0xac0974bec39a17e36ba4a6b4d238ff944bacb478cbed5efcae784d7bf4f2ff80".

(** [d.get(key, default)] on a Boolean entry, and its truthiness. *)
Definition get_bool (entry : option bool) (default : bool) : bool :=
  match entry with
  | Some b => b
  | None => default
  end.

Definition the_int (n : option Z) : Z :=
  match n with
  | Some n => n
  | None => 0%Z
  end.

(** [a or b] on strings. *)
Definition or_str (a : option string) (b : string) : string :=
  if truthy_str a then the a else b.

(** Computations that change local variables of type [S] and may raise:
    the state reached is kept when an exception leaves a [try]. *)
Definition stexc (S A : Type) : Type := S -> exc A * S.

Definition st_ret {S A} (a : A) : stexc S A := fun s => (inr a, s).

Definition st_bind {S A B} (m : stexc S A) (k : A -> stexc S B) : stexc S B :=
  fun s =>
    match m s with
    | (inl e, s') => (inl e, s')
    | (inr a, s') => k a s'
    end.

Definition modify {S} (f : S -> S) : stexc S unit := fun s => (inr tt, f s).

Definition lift {S A} (m : exc A) : stexc S A := fun s => (m, s).

(** [try: body  except Exception as e: handler] *)
Definition try_except {S A} (body : stexc S A) (handler : string -> stexc S A)
    : stexc S A :=
  fun s =>
    match body s with
    | (inl e, s') => handler e s'
    | r => r
    end.

Declare Scope stexc_scope.
Delimit Scope stexc_scope with stexc.
Notation "x <~ m ;; k" := (st_bind m (fun x => k))
  (at level 61, m at next level, right associativity) : stexc_scope.
Notation "m ;;; k" := (st_bind m (fun _ => k))
  (at level 61, right associativity) : stexc_scope.
Local Open Scope stexc_scope.

(** The local variables the ledger step of [create_verification] updates:
    the attributes of the row object, the dict of the detection, and
    whether the session has rolled back, which expires the object. *)
Record Locals := {
  db_verification : Verification.t;
  detection_result : DetectionResult;
  rolled_back : bool
}.

Definition set_row_is_authentic (b : bool) (v : Verification.t) : Verification.t :=
  Verification.mk (Verification.product_id v) (Verification.verifier_id v)
    (Verification.location v) b (Verification.notes v)
    (Verification.verification_date v) (Verification.detection_reasons v)
    (Verification.confidence_score v) (Verification.risk_level v)
    (Verification.blockchain_verified v) (Verification.blockchain_verification_id v).

Definition set_row_ledger (verified : bool) (vid : option Z) (v : Verification.t)
    : Verification.t :=
  Verification.mk (Verification.product_id v) (Verification.verifier_id v)
    (Verification.location v) (Verification.is_authentic v) (Verification.notes v)
    (Verification.verification_date v) (Verification.detection_reasons v)
    (Verification.confidence_score v) (Verification.risk_level v)
    verified vid.

Definition set_is_authentic (b : bool) (r : DetectionResult) : DetectionResult :=
  {| is_authentic := b;
     detection_reasons := detection_reasons r;
     confidence_score := confidence_score r;
     risk_level := risk_level r;
     risk_factors := risk_factors r;
     validation_summary := validation_summary r |}.

(** [detection_result['detection_reasons'].append(reason)] *)
Definition append_reason (reason : string) (r : DetectionResult) : DetectionResult :=
  {| is_authentic := is_authentic r;
     detection_reasons := detection_reasons r ++ [reason];
     confidence_score := confidence_score r;
     risk_level := risk_level r;
     risk_factors := risk_factors r;
     validation_summary := validation_summary r |}.

Definition on_row (f : Verification.t -> Verification.t) (l : Locals) : Locals :=
  {| db_verification := f (db_verification l);
     detection_result := detection_result l;
     rolled_back := rolled_back l |}.

Definition on_result (f : DetectionResult -> DetectionResult) (l : Locals) : Locals :=
  {| db_verification := db_verification l;
     detection_result := f (detection_result l);
     rolled_back := rolled_back l |}.

(** [db.commit()] after the row was changed.  A commit that fails raises,
    and the session rolls back: the changes made to the row since
    [committed], the row as last committed, are lost and the object is
    expired. *)
Definition commit_ledger (db : Session) (committed : Verification.t)
    : stexc Locals unit :=
  fun l =>
    match raises db CommitLedger with
    | Some msg =>
        (inl msg,
         {| db_verification := committed;
            detection_result := detection_result l;
            rolled_back := true |})
    | None => (inr tt, l)
    end.

(** The call of [blockchain_service.verify_product] in
    [create_verification]. *)
Definition create_verification_call (blockchain_service : BlockchainService)
    (verification_in : VerificationCreate.t) (current_user : User.t)
    (product : Product.t) : exc BlockchainResult :=
  verify_product blockchain_service
    (the_int (Product.blockchain_id product))
    (VerificationCreate.location verification_in)
    (or_str (VerificationCreate.notes verification_in) "")
    (the (User.wallet_address current_user))
    private_key
    (Product.qr_code_hash product).

(** The [verification_data] of [create_verification]. *)
Definition create_verification_data (verification_in : VerificationCreate.t)
    (current_user : User.t) : VerificationData :=
  {| vd_location := Some (VerificationCreate.location verification_in);
     vd_notes := VerificationCreate.notes verification_in;
     vd_verifier_id := User.id current_user |}.

(** The [if current_user.wallet_address and product.blockchain_id] block of
    [create_verification]. *)
Definition create_verification_ledger (db : Session) (blockchain_service : BlockchainService)
    (verification_in : VerificationCreate.t) (current_user : User.t)
    (product : Product.t) : stexc Locals unit :=
  fun locals =>
  let committed := db_verification locals in
  (if truthy_str (User.wallet_address current_user)
     && truthy_int (Product.blockchain_id product)
  then
    try_except
      (blockchain_result <~
         lift (create_verification_call blockchain_service verification_in
                 current_user product) ;;
       if get_bool (bc_success blockchain_result) false then
         let blockchain_authentic :=
           get_bool (bc_verification_result blockchain_result) true in
         (if negb blockchain_authentic then
            modify (on_row (set_row_is_authentic false)) ;;;
            modify (on_result (set_is_authentic false)) ;;;
            modify (on_result (append_reason
              "Blockchain verification failed - product marked as counterfeit"))
          else st_ret tt) ;;;
         modify (on_row (set_row_ledger true (bc_verification_id blockchain_result))) ;;;
         commit_ledger db committed
       else st_ret tt)
      (fun e => modify (on_result (append_reason "Blockchain verification error")))
  else st_ret tt) locals.

(** [create_verification]: the row returned, with the final value of the
    local [detection_result].  The row is the one read back by
    [db.refresh]; the table it was added to is not read again.  After a
    rollback the response is built from an expired object: its attributes
    are read back from the database, which holds the row as first
    committed, or the read raises. *)
Definition create_verification (w : World) (db : Session)
    (blockchain_service : BlockchainService)
    (verification_in : VerificationCreate.t) (current_user : User.t)
    : exc Locals :=
  (product <-
     run db ProductFirst
       (find (fun p => (Product.id p =? VerificationCreate.product_id verification_in)%Z)
             (products db)) ;;
   match product with
   | None => raise "404: Product not found"
   | Some product =>
       let verification_data := create_verification_data verification_in current_user in
       let provided_qr_hash := VerificationCreate.qr_code_hash verification_in in
       let detection_result :=
         detect_counterfeit w db product verification_data provided_qr_hash in
       let db_verification :=
         Verification.mk
           (VerificationCreate.product_id verification_in)
           (User.id current_user)
           (Some (VerificationCreate.location verification_in))
           (is_authentic detection_result)
           (VerificationCreate.notes verification_in)
           (Some (server_now w))
           (detection_reasons detection_result)
           (Some (confidence_score detection_result))
           (Some (risk_level detection_result))
           false
           None in
       _ <- run db CommitVerification tt ;;
       match create_verification_ledger db blockchain_service verification_in
               current_user product
               {| db_verification := db_verification;
                  detection_result := detection_result;
                  rolled_back := false |} with
       | (inl e, _) => raise e
       | (inr _, locals) =>
           if rolled_back locals
           then run db RefreshAfterRollback locals
           else ret locals
       end
   end)%exc.

(** The [blockchain_analysis] dict of [analyze_counterfeit_detection]. *)
Inductive BlockchainAnalysis : Type :=
| NoAnalysis
| Analysed (blockchain_verification verification_result : bool)
           (transaction_hash : option string) (block_number : option Z)
| AnalysisError (error : string).

Record AnalyzeLocals := {
  analyzed : DetectionResult;
  blockchain_analysis : BlockchainAnalysis
}.

Definition on_analyzed (f : DetectionResult -> DetectionResult) (l : AnalyzeLocals)
    : AnalyzeLocals :=
  {| analyzed := f (analyzed l); blockchain_analysis := blockchain_analysis l |}.

Definition set_analysis (a : BlockchainAnalysis) (l : AnalyzeLocals) : AnalyzeLocals :=
  {| analyzed := analyzed l; blockchain_analysis := a |}.

(** The call of [blockchain_service.verify_product] in
    [analyze_counterfeit_detection]. *)
Definition analyze_call (blockchain_service : BlockchainService)
    (qr_code_hash location : option string) (current_user : User.t)
    (product : Product.t) : exc BlockchainResult :=
  verify_product blockchain_service
    (the_int (Product.blockchain_id product))
    (or_str location "Analysis")
    "Counterfeit analysis"
    (the (User.wallet_address current_user))
    private_key
    (if truthy_str qr_code_hash then qr_code_hash
     else Product.qr_code_hash product).

(** The [verification_data] of [analyze_counterfeit_detection]. *)
Definition analyze_data (location : option string) (current_user : User.t)
    : VerificationData :=
  {| vd_location := Some (or_str location "Unknown");
     vd_notes := Some ("Counterfeit analysis by " +++ User.email current_user);
     vd_verifier_id := User.id current_user |}.

(** The [if current_user.wallet_address and product.blockchain_id] block of
    [analyze_counterfeit_detection]. *)
Definition analyze_ledger (blockchain_service : BlockchainService)
    (qr_code_hash location : option string) (current_user : User.t)
    (product : Product.t) : stexc AnalyzeLocals unit :=
  if truthy_str (User.wallet_address current_user)
     && truthy_int (Product.blockchain_id product)
  then
    try_except
      (blockchain_result <~
         lift (analyze_call blockchain_service qr_code_hash location
                 current_user product) ;;
       modify (set_analysis
         (Analysed (get_bool (bc_success blockchain_result) false)
                   (get_bool (bc_verification_result blockchain_result) true)
                   (bc_transaction_hash blockchain_result)
                   (bc_block_number blockchain_result))) ;;;
       if negb (get_bool (bc_success blockchain_result) false) then
         modify (on_analyzed (append_reason "Blockchain verification failed"))
       else if negb (get_bool (bc_verification_result blockchain_result) true) then
         modify (on_analyzed (set_is_authentic false)) ;;;
         modify (on_analyzed (append_reason "Blockchain marked product as counterfeit"))
       else st_ret tt)
      (fun e =>
         modify (set_analysis (AnalysisError e)) ;;;
         modify (on_analyzed (append_reason "Blockchain verification error")))
  else st_ret tt.

Definition get_risk_recommendation (risk_score : nat) (is_authentic : bool) : string :=
  if negb is_authentic then
    "Product appears to be counterfeit. Do not purchase or use."
  else if (70 <=? risk_score)%nat then
    "High risk product. Exercise extreme caution and verify through official channels."
  else if (40 <=? risk_score)%nat then
    "Medium risk product. Additional verification recommended."
  else
    "Low risk product. Appears authentic based on current analysis.".

Module Analysis.
Record t := mk {
    product_id : Z;
    product_name : option string;
    manufacturer_id : Z;
    detection_result : DetectionResult;
    blockchain_analysis : BlockchainAnalysis;
    total_verifications : nat;
    authentic_verifications : nat;
    counterfeit_verifications : nat;
    verification_frequency : string;
    suspicious_patterns : list string;
    risk_score : nat;
    risk_level : string;
    recommendation : string
}.
End Analysis.

(** [analyze_counterfeit_detection], without the [analysis_timestamp] of
    its answer. *)
Definition analyze_counterfeit_detection (w : World) (db : Session)
    (blockchain_service : BlockchainService)
    (product_id : Z) (qr_code_hash location : option string) (current_user : User.t)
    : exc Analysis.t :=
  (product <-
     run db ProductFirst
       (find (fun p => (Product.id p =? product_id)%Z) (products db)) ;;
   match product with
   | None => raise "404: Product not found"
   | Some product =>
       let verification_data := analyze_data location current_user in
       let detection_result :=
         detect_counterfeit w db product verification_data qr_code_hash in
       match analyze_ledger blockchain_service qr_code_hash location current_user
               product
               {| analyzed := detection_result; blockchain_analysis := NoAnalysis |} with
       | (inl e, _) => raise e
       | (inr _, locals) =>
           let detection_result := analyzed locals in
           verification_history <-
             run db VerificationHistoryAll
               (filter (fun v => (Verification.product_id v =? product_id)%Z)
                       (verifications db)) ;;
           let counterfeit :=
             List.length (filter (fun v => negb (Verification.is_authentic v))
                                 verification_history) in
           let suspicious_patterns := [] in
           let suspicious_patterns :=
             if (50 <? List.length verification_history)%nat
             then suspicious_patterns ++ ["Excessive verification attempts"]
             else suspicious_patterns in
           let suspicious_patterns :=
             if (0 <? counterfeit)%nat
             then suspicious_patterns ++ ["Previous counterfeit detections"]
             else suspicious_patterns in
           let risk_factors :=
             (List.length (detection_reasons detection_result)
              + List.length suspicious_patterns)%nat in
           let risk_score := Nat.min 100 (risk_factors * 20) in
           ret (Analysis.mk
                  product_id
                  (Product.product_name product)
                  (Product.manufacturer_id product)
                  detection_result
                  (blockchain_analysis locals)
                  (List.length verification_history)
                  (List.length (filter Verification.is_authentic verification_history))
                  counterfeit
                  (if (List.length verification_history <? 10)%nat
                   then "Normal" else "High")
                  suspicious_patterns
                  risk_score
                  (if (risk_score <? 30)%nat then "Low"
                   else if (risk_score <? 70)%nat then "Medium" else "High")
                  (get_risk_recommendation risk_score (is_authentic detection_result)))
       end
   end)%exc.

(** ** The legacy Swarm validation ([_validate_swarm_data]) *)

(** [SwarmService.retrieve_product_data]: the dict it answers has the keys
    of the one of the IPFS service. *)
Record SwarmService := {
  swarm_retrieve_product_data : string -> exc IpfsResult
}.

Definition _validate_swarm_data (swarm_service : SwarmService) (product : Product.t)
    : Validation :=
  let reasons := [] in
  let is_valid := true in
  if negb (truthy_str (Product.swarm_hash product)) then
    let reasons := reasons ++ ["No Swarm data available - limited verification"] in
    {| is_valid := true; reasons := reasons |}
  else
    catch
      (swarm_result <-
         swarm_retrieve_product_data swarm_service (the (Product.swarm_hash product)) ;;
       if negb (success swarm_result) then
         ret {| is_valid := false;
                reasons := reasons ++ ["Swarm data retrieval failed: "
                                       +++ str_of_opt (error swarm_result)] |}
       else if negb (eqb_opt_str (ipfs_product_name swarm_result)
                                 (Product.product_name product)) then
         ret {| is_valid := false;
                reasons := reasons ++ ["Swarm data product name mismatch"] |}
       else if negb (eqb_opt_str (ipfs_batch_number swarm_result)
                                 (Product.batch_number product)) then
         ret {| is_valid := false;
                reasons := reasons ++ ["Swarm data batch number mismatch"] |}
       else
         ret {| is_valid := is_valid;
                reasons := reasons ++ ["Swarm data integrity verified"] |})%exc
      (fun e =>
         {| is_valid := false;
            reasons := reasons ++ ["Swarm validation error: " +++ e] |}).

(** ** Sample data

    A product as the registration endpoint stores it, its manufacturer and
    a database holding both; the variations used in the examples below
    change one field at a time. *)

Definition sha_a : string :=
  "aaaaaaaaaaaaaaaaaaaaaaaaaaaaaaaaaaaaaaaaaaaaaaaaaaaaaaaaaaaaaaaa".

(** Sixty-four characters, none of them a hexadecimal digit. *)
Definition sixty_four_z : string :=
  "zzzzzzzzzzzzzzzzzzzzzzzzzzzzzzzzzzzzzzzzzzzzzzzzzzzzzzzzzzzzzzzz".

(** 2023-11-14 22:13:20 UTC, and a manufacturing date five weeks before. *)
Definition sample_now : Z := 1700000000000000.

Definition sample_made : Z := 1697000000000000.

Definition widget : Product.t :=
  Product.mk 1 (Some 7%Z) (Some "Widget") (Some "A widget") (Some sample_made)
    (Some "BATCH-001") (Some sha_a) None None 10 true.

Definition with_qr_code_hash (h : option string) (p : Product.t) : Product.t :=
  Product.mk (Product.id p) (Product.blockchain_id p) (Product.product_name p)
    (Product.product_description p) (Product.manufacturing_date p)
    (Product.batch_number p) h (Product.ipfs_hash p) (Product.swarm_hash p)
    (Product.manufacturer_id p) (Product.is_active p).

Definition with_blockchain_id (b : option Z) (p : Product.t) : Product.t :=
  Product.mk (Product.id p) b (Product.product_name p)
    (Product.product_description p) (Product.manufacturing_date p)
    (Product.batch_number p) (Product.qr_code_hash p) (Product.ipfs_hash p)
    (Product.swarm_hash p) (Product.manufacturer_id p) (Product.is_active p).

Definition with_manufacturing_date (d : option Z) (p : Product.t) : Product.t :=
  Product.mk (Product.id p) (Product.blockchain_id p) (Product.product_name p)
    (Product.product_description p) d
    (Product.batch_number p) (Product.qr_code_hash p) (Product.ipfs_hash p)
    (Product.swarm_hash p) (Product.manufacturer_id p) (Product.is_active p).

(** A second row with the fingerprint of [widget], withdrawn from sale. *)
Definition withdrawn_twin : Product.t :=
  Product.mk 2 None (Some "Widget (old)") (Some "A widget") (Some sample_made)
    (Some "BATCH-000") (Some sha_a) None None 10 false.

Definition maker : User.t :=
  User.mk 10 "maker@example.com" (Some "0x70997970C51812dc3A010C7d01b50e0d17dc79C8")
    true true.

Definition unverified_maker : User.t :=
  User.mk 10 "maker@example.com" (Some "0x70997970C51812dc3A010C7d01b50e0d17dc79C8")
    true false.

Definition no_failure : Query -> option string := fun _ => None.

Definition shop (ps : list Product.t) (us : list User.t) : Session :=
  {| products := ps; users := us; verifications := []; raises := no_failure |}.


Definition sample_world : World :=
  {| utcnow := fun _ => sample_now;
     server_now := sample_now;
     retrieve_product_data := fun _ => raise "IPFS node unreachable";
     format_percent := fun _ => "0.0%" |}.

Definition with_swarm_hash (h : option string) (p : Product.t) : Product.t :=
  Product.mk (Product.id p) (Product.blockchain_id p) (Product.product_name p)
    (Product.product_description p) (Product.manufacturing_date p)
    (Product.batch_number p) (Product.qr_code_hash p) (Product.ipfs_hash p) h
    (Product.manufacturer_id p) (Product.is_active p).

Definition with_ipfs_hash (h : option string) (p : Product.t) : Product.t :=
  Product.mk (Product.id p) (Product.blockchain_id p) (Product.product_name p)
    (Product.product_description p) (Product.manufacturing_date p)
    (Product.batch_number p) (Product.qr_code_hash p) h (Product.swarm_hash p)
    (Product.manufacturer_id p) (Product.is_active p).

(** [widget] with its data published on IPFS; [sample_world] below cannot
    reach the node. *)
Definition pinned : Product.t :=
  with_ipfs_hash (Some "QmYwAPJzv5CZsnA625s3Xf2nemtYgPpHdWEz79ojWnPbdG") widget.

(** A second product of the same manufacturer, with its own hash. *)
Definition sha_b : string :=
  "bbbbbbbbbbbbbbbbbbbbbbbbbbbbbbbbbbbbbbbbbbbbbbbbbbbbbbbbbbbbbbbb".


(** [widget] with a manufacturing date of 1970. *)
Definition antique : Product.t := with_manufacturing_date (Some 0%Z) widget.

(** [widget] before its registration on the blockchain, and with a stored
    hash of the right length that is no digest. *)
Definition unregistered : Product.t := with_blockchain_id None widget.

Definition mislabelled : Product.t := with_qr_code_hash (Some sixty_four_z) widget.

Definition truncated : Product.t := with_qr_code_hash (Some "abc") widget.

(** A ledger whose contract answers that the product is not authentic, and
    the request of [maker] to verify [widget]. *)
Definition denying_ledger : BlockchainService :=
  {| verify_product := fun _ _ _ _ _ _ =>
       ret {| bc_success := Some true;
              bc_verification_result := Some false;
              bc_verification_id := None;
              bc_transaction_hash := Some "0x5d1e";
              bc_block_number := Some 12%Z |} |}.

Definition scan_of_widget : VerificationCreate.t :=
  VerificationCreate.mk "Shop" None 1 (Some sha_a).

Definition at_the_shop : VerificationData :=
  {| vd_location := Some "Shop"; vd_notes := None; vd_verifier_id := 10 |}.

(** A shop where fifteen of the twenty-five recent scans of [widget] were
    negative. *)
Definition scan (authentic : bool) : Verification.t :=
  Verification.mk 1 10 (Some "Shop") authentic None (Some 1699913600000000%Z) []
    None None false None.

Definition busy_history : list Verification.t :=
  repeat (scan false) 15 ++ repeat (scan true) 10.

Definition busy_shop : Session :=
  {| products := [widget]; users := [maker]; verifications := busy_history;
     raises := no_failure |}.

(** A second active product of the batch of [widget], with its own hash. *)
Definition reissue : Product.t :=
  Product.mk 3 (Some 9%Z) (Some "Widget") (Some "A widget") (Some sample_made)
    (Some "BATCH-001") (Some sha_b) None None 10 true.

(** ** Notions used in the statements *)

(** A hexadecimal digit, as the specification understands the fingerprint;
    the service has no such test. *)
Definition is_hex_digit (c : ascii) : bool :=
  let n := nat_of_ascii c in
  ((48 <=? n) && (n <=? 57) || (97 <=? n) && (n <=? 102)
   || (65 <=? n) && (n <=? 70))%nat.

Fixpoint all_hex (s : string) : bool :=
  match s with
  | EmptyString => true
  | String c s' => is_hex_digit c && all_hex s'
  end.


(** A whole number of hundredths. *)
Definition hundredths (x : Q) : Prop := exists k : Z, x * 100 == inject_Z k.

(** The risk factors a run appends, in the order of the seven checks. *)
Definition factors_of (qr ipfs bc : Validation) (dup : DuplicateCheck)
    (pat : PatternAnalysis) (man : Validation) (con : ConsistencyCheck)
    : list string :=
  (if is_valid qr then [] else ["qr_invalid"])
  ++ (if is_valid ipfs then [] else ["ipfs_invalid"])
  ++ (if is_valid bc then [] else ["blockchain_invalid"])
  ++ (if has_duplicates dup then ["duplicate_detected"] else [])
  ++ (if suspicious_pattern pat then ["suspicious_pattern"] else [])
  ++ (if is_valid man then [] else ["manufacturer_invalid"])
  ++ (if is_consistent con then [] else ["data_inconsistent"]).

(** * Properties *)

(** ** Shape of a verdict reached without an exception *)

Lemma detect_counterfeit_try_inr w db product vd provided r :
  detect_counterfeit_try w db product vd provided = inr r ->
  exists qr dup pat man,
    _validate_qr_code db product provided = inr qr
    /\ _check_duplicates db product = inr dup
    /\ _analyze_verification_patterns w db product = inr pat
    /\ _validate_manufacturer db product = inr man
    /\ is_authentic r
       = is_valid qr && is_valid (_validate_ipfs_data w product)
         && negb (has_duplicates dup)
    /\ detection_reasons r
       = reasons qr ++ reasons (_validate_ipfs_data w product)
         ++ reasons (_validate_blockchain_data product)
         ++ duplicate_reasons dup ++ pattern_reasons pat ++ reasons man
         ++ consistency_reasons (_check_data_consistency w product vd)
    /\ risk_factors r
       = factors_of qr (_validate_ipfs_data w product)
           (_validate_blockchain_data product) dup pat man
           (_check_data_consistency w product vd)
    /\ confidence_score r
       = _calculate_confidence_score (is_authentic r) (risk_factors r)
           (detection_reasons r)
    /\ risk_level r = _calculate_risk_level (risk_factors r) (confidence_score r).
Proof.
  unfold detect_counterfeit_try, factors_of.
  destruct (_validate_qr_code db product provided) as [e|qr];
    [intros H; discriminate H|].
  cbn [bind].
  destruct (is_valid qr) eqn:Eqr,
    (is_valid (_validate_ipfs_data w product)) eqn:Eip; cbn [negb];
    (destruct (_check_duplicates db product) as [e|dup];
       [intros H; discriminate H|]);
    cbn [bind];
    (destruct (has_duplicates dup) eqn:Edup;
     (destruct (_analyze_verification_patterns w db product) as [e|pat];
        [intros H; discriminate H|]);
     cbn [bind];
     (destruct (_validate_manufacturer db product) as [e|man];
        [intros H; discriminate H|]);
     cbn [bind]; unfold ret; intros H; injection H as <-;
     exists qr, dup, pat, man;
     rewrite Eqr, Edup;
     cbn [is_authentic detection_reasons risk_factors confidence_score
          risk_level andb negb];
     assert (Hf : forall (c : bool) (l : list string) (x : string),
                (if negb c then l ++ [x] else l) = l ++ (if c then [] else [x]))
       by (intros [] ? ?; cbn; rewrite ?app_nil_r; reflexivity);
     assert (Hg : forall (c : bool) (l : list string) (x : string),
                (if c then l ++ [x] else l) = l ++ (if c then [x] else []))
       by (intros [] ? ?; cbn; rewrite ?app_nil_r; reflexivity);
     rewrite ?Hf, ?Hg; rewrite <- ?app_assoc; cbn [app];
     repeat split; try reflexivity;
     destruct (is_valid (_validate_blockchain_data product)); reflexivity).
Qed.

(** ** Arithmetic of the score *)

Lemma round_half_even_range (x : Q) :
  (Qfloor x <= round_half_even x <= Qfloor x + 1)%Z.
Proof.
  unfold round_half_even.
  destruct (Qcompare (x - inject_Z (Qfloor x)) (1 # 2)); [destruct (Z.even _)| |]; lia.
Qed.

Lemma round_half_even_up (x : Q) :
  round_half_even x = (Qfloor x + 1)%Z -> 1 # 2 <= x - inject_Z (Qfloor x).
Proof.
  unfold round_half_even.
  destruct (Qcompare (x - inject_Z (Qfloor x)) (1 # 2)) eqn:E.
  - intros _. apply (proj2 (Qeq_alt _ _)) in E. rewrite E. apply Qle_refl.
  - lia.
  - intros _. apply (proj2 (Qgt_alt _ _)) in E. apply Qlt_le_weak. exact E.
Qed.

Lemma round2_bounds (x : Q) : 0 <= x -> x <= 1 -> 0 <= round2 x /\ round2 x <= 1.
Proof.
  intros H0 H1.
  assert (Hlo : (0 <= Qfloor (x * 100))%Z).
  { pose proof (Qfloor_resp_le (inject_Z 0) (x * 100)) as H.
    rewrite Qfloor_Z in H. apply H. unfold inject_Z. lra. }
  assert (Hhi : (Qfloor (x * 100) <= 100)%Z).
  { pose proof (Qfloor_resp_le (x * 100) (inject_Z 100)) as H.
    rewrite Qfloor_Z in H. apply H. unfold inject_Z. lra. }
  pose proof (round_half_even_range (x * 100)) as Hr.
  assert (Hup : (round_half_even (x * 100) <= 100)%Z).
  { destruct (Z.eq_dec (round_half_even (x * 100)) (Qfloor (x * 100) + 1)) as [E|E];
      [|lia].
    apply round_half_even_up in E.
    destruct (Z.eq_dec (Qfloor (x * 100)) 100) as [F|F]; [|lia].
    rewrite F in E. exfalso.
    change (inject_Z 100) with 100%Q in E. lra. }
  unfold round2, Qle. simpl. lia.
Qed.

Lemma get_penalties_nonneg (factor : string) : 0 <= get penalties factor 0.1.
Proof.
  unfold penalties. cbn [get].
  repeat match goal with
         | |- context [if ?c then _ else _] => destruct c
         end; unfold Qle; simpl; lia.
Qed.

Lemma fold_left_Qplus_nonneg (l : list Q) (acc : Q) :
  (forall x, In x l -> 0 <= x) -> 0 <= acc -> 0 <= fold_left Qplus l acc.
Proof.
  revert acc. induction l as [|y l IH]; intros acc Hl Hacc; cbn [fold_left].
  - exact Hacc.
  - apply IH.
    + intros x Hx. apply Hl. right. exact Hx.
    + assert (0 <= y) by (apply Hl; left; reflexivity). lra.
Qed.

Lemma total_penalty_nonneg (risk_factors : list string) :
  0 <= sumQ (map (fun factor => get penalties factor 0.1) risk_factors).
Proof.
  unfold sumQ. apply fold_left_Qplus_nonneg; [|lra].
  intros x Hx. apply in_map_iff in Hx. destruct Hx as [f [<- _]].
  apply get_penalties_nonneg.
Qed.

Lemma py_max_0_nonneg (x : Q) : 0 <= py_max 0.0 x.
Proof. unfold py_max. destruct (Qlt_le_dec 0.0 x); lra. Qed.

Lemma py_max_0_le (x b : Q) : 0 <= b -> x <= b -> py_max 0.0 x <= b.
Proof. unfold py_max. destruct (Qlt_le_dec 0.0 x); lra. Qed.

Lemma _calculate_confidence_score_bounds (is_authentic : bool)
    (risk_factors detection_reasons : list string) :
  0 <= _calculate_confidence_score is_authentic risk_factors detection_reasons
  /\ _calculate_confidence_score is_authentic risk_factors detection_reasons <= 1.
Proof.
  unfold _calculate_confidence_score.
  destruct is_authentic; cbn [negb]; [|lra].
  apply round2_bounds.
  - apply py_max_0_nonneg.
  - apply py_max_0_le; [lra|].
    pose proof (total_penalty_nonneg risk_factors) as Hp.
    set (n := List.length (filter is_warning detection_reasons)).
    assert (Hw : 0 <= inject_Z (Z.of_nat n) * 0.05).
    { apply Qmult_le_0_compat; [|lra].
      change 0 with (inject_Z 0). rewrite <- Zle_Qle. lia. }
    lra.
Qed.

Lemma _calculate_confidence_score_counterfeit (risk_factors detection_reasons : list string) :
  _calculate_confidence_score false risk_factors detection_reasons = 0.0.
Proof. reflexivity. Qed.

(** ** Runs without a database failure *)

Lemma run_ok {A} (db : Session) (q : Query) (rows : A) :
  raises db q = None -> run db q rows = inr rows.
Proof. intros H. unfold run. rewrite H. reflexivity. Qed.

Lemma _validate_qr_code_bad_format db product provided :
  truthy_str (Product.qr_code_hash product) = false
  \/ len (Product.qr_code_hash product) <> 64%nat ->
  _validate_qr_code db product provided
  = inr {| is_valid := false;
           reasons := ["Invalid QR code hash format - possible counterfeit"] |}.
Proof.
  intros H. unfold _validate_qr_code.
  destruct H as [H|H].
  - rewrite H. reflexivity.
  - apply Nat.eqb_neq in H. rewrite H, orb_true_r. reflexivity.
Qed.

Lemma _validate_qr_code_good_format db product provided :
  truthy_str (Product.qr_code_hash product) = true ->
  len (Product.qr_code_hash product) = 64%nat ->
  raises db DuplicateQrCount = None ->
  let n := List.length (filter (same_qr_other_id product) (products db)) in
  let matched :=
    negb (truthy_str provided
          && negb (eqb_opt_str (Product.qr_code_hash product) provided)) in
  _validate_qr_code db product provided
  = inr {| is_valid := matched && (n =? 0)%nat;
           reasons :=
             ["QR code hash format is valid"]
             ++ (if truthy_str provided then
                   if eqb_opt_str (Product.qr_code_hash product) provided
                   then ["QR code hash matches stored value"]
                   else ["QR code hash mismatch - possible counterfeit"]
                 else [])
             ++ [if (0 <? n)%nat
                 then "Duplicate QR code detected on " +++ str_of_nat n
                      +++ " other products - counterfeit"
                 else "QR code is unique - no duplicates found"] |}.
Proof.
  intros Ht Hl Hq n matched. subst matched. unfold _validate_qr_code.
  rewrite Ht, Hl, (run_ok _ _ _ Hq). cbn [negb orb Nat.eqb bind].
  fold n.
  destruct (truthy_str provided);
    [destruct (eqb_opt_str (Product.qr_code_hash product) provided)|];
    destruct n; reflexivity.
Qed.

Lemma _validate_qr_code_total db product provided :
  raises db DuplicateQrCount = None ->
  exists v, _validate_qr_code db product provided = inr v.
Proof.
  intros Hq.
  destruct (truthy_str (Product.qr_code_hash product)) eqn:Ht.
  - destruct (Nat.eq_dec (len (Product.qr_code_hash product)) 64) as [Hl|Hl].
    + eexists. apply _validate_qr_code_good_format; assumption.
    + eexists. apply _validate_qr_code_bad_format. right. exact Hl.
  - eexists. apply _validate_qr_code_bad_format. left. exact Ht.
Qed.

Lemma _check_duplicates_total db product :
  raises db DuplicateBatchAll = None ->
  exists v, _check_duplicates db product = inr v
            /\ has_duplicates v
               = negb (Nat.eqb (List.length (filter (same_batch_other_id product)
                                                    (products db))) 0).
Proof.
  intros Hq. unfold _check_duplicates. rewrite (run_ok _ _ _ Hq). cbn [bind].
  destruct (filter (same_batch_other_id product) (products db));
    eexists; split; reflexivity.
Qed.

Lemma _analyze_verification_patterns_total w db product :
  raises db RecentVerificationsAll = None ->
  exists v, _analyze_verification_patterns w db product = inr v.
Proof.
  intros Hq. unfold _analyze_verification_patterns.
  rewrite (run_ok _ _ _ Hq). cbn [bind].
  repeat match goal with
         | |- context [if ?c then _ else _] => destruct c
         end; eexists; reflexivity.
Qed.

Lemma _validate_manufacturer_total db product :
  raises db ManufacturerFirst = None ->
  exists v, _validate_manufacturer db product = inr v.
Proof.
  intros Hq. unfold _validate_manufacturer.
  rewrite (run_ok _ _ _ Hq). cbn [bind].
  destruct (find _ (users db)) as [m|]; [|eexists; reflexivity].
  destruct (User.is_active m), (User.is_verified m); eexists; reflexivity.
Qed.

(** When no statement fails, the body of the [try] returns a verdict. *)
Lemma detect_counterfeit_try_total w db product vd provided :
  (forall q, raises db q = None) ->
  exists r, detect_counterfeit_try w db product vd provided = inr r.
Proof.
  intros Hq.
  destruct (_validate_qr_code_total db product provided (Hq _)) as [qr Hqr].
  destruct (_check_duplicates_total db product (Hq _)) as [dup [Hdup _]].
  destruct (_analyze_verification_patterns_total w db product (Hq _)) as [pat Hpat].
  destruct (_validate_manufacturer_total db product (Hq _)) as [man Hman].
  unfold detect_counterfeit_try.
  rewrite Hqr. cbn [bind].
  destruct (is_valid qr), (is_valid (_validate_ipfs_data w product)); cbn [negb];
    rewrite Hdup; cbn [bind]; destruct (has_duplicates dup);
    rewrite Hpat; cbn [bind]; rewrite Hman; cbn [bind];
    eexists; reflexivity.
Qed.

Lemma detect_counterfeit_returned w db product vd provided r :
  detect_counterfeit_try w db product vd provided = inr r ->
  detect_counterfeit w db product vd provided = r.
Proof. intros H. unfold detect_counterfeit. rewrite H. reflexivity. Qed.

Lemma detect_counterfeit_caught w db product vd provided e :
  detect_counterfeit_try w db product vd provided = inl e ->
  detect_counterfeit w db product vd provided = detection_error e.
Proof. intros H. unfold detect_counterfeit. rewrite H. reflexivity. Qed.


(** ** The gate policy *)

Lemma in_factors_of (f : string) qr ipfs bc dup pat man con :
  In f (factors_of qr ipfs bc dup pat man con) <->
  (is_valid qr = false /\ f = "qr_invalid")
  \/ (is_valid ipfs = false /\ f = "ipfs_invalid")
  \/ (is_valid bc = false /\ f = "blockchain_invalid")
  \/ (has_duplicates dup = true /\ f = "duplicate_detected")
  \/ (suspicious_pattern pat = true /\ f = "suspicious_pattern")
  \/ (is_valid man = false /\ f = "manufacturer_invalid")
  \/ (is_consistent con = false /\ f = "data_inconsistent").
Proof.
  assert (Hn : forall (c : bool) (x : string),
             In f (if c then [] else [x]) <-> c = false /\ f = x)
    by (intros [] x; cbn [In]; intuition (try discriminate; auto)).
  assert (Hp : forall (c : bool) (x : string),
             In f (if c then [x] else []) <-> c = true /\ f = x)
    by (intros [] x; cbn [In]; intuition (try discriminate; auto)).
  unfold factors_of. rewrite !in_app_iff, !Hn, !Hp. reflexivity.
Qed.

(** C1.  On the path without an exception the verdict is negative exactly
    when the QR validation, the IPFS validation or the duplicate check
    fails; a failure of the blockchain, pattern, manufacturer or
    consistency check puts its name among the risk factors and leaves the
    verdict alone. *)
Theorem gates_decide_the_verdict :
  forall w db product vd provided r,
    detect_counterfeit_try w db product vd provided = inr r ->
    exists qr dup pat man,
      _validate_qr_code db product provided = inr qr
      /\ _check_duplicates db product = inr dup
      /\ _analyze_verification_patterns w db product = inr pat
      /\ _validate_manufacturer db product = inr man
      /\ detect_counterfeit w db product vd provided = r
      /\ (is_authentic r = false <->
          is_valid qr = false
          \/ is_valid (_validate_ipfs_data w product) = false
          \/ has_duplicates dup = true)
      /\ (is_valid (_validate_blockchain_data product) = false ->
          In "blockchain_invalid" (risk_factors r))
      /\ (suspicious_pattern pat = true -> In "suspicious_pattern" (risk_factors r))
      /\ (is_valid man = false -> In "manufacturer_invalid" (risk_factors r))
      /\ (is_consistent (_check_data_consistency w product vd) = false ->
          In "data_inconsistent" (risk_factors r)).
Proof.
  intros w db product vd provided r H.
  destruct (detect_counterfeit_try_inr _ _ _ _ _ _ H)
    as (qr & dup & pat & man & Hqr & Hdup & Hpat & Hman & Ha & _ & Hf & _).
  exists qr, dup, pat, man.
  repeat (split; [assumption|]).
  split; [apply detect_counterfeit_returned; exact H|].
  split.
  - rewrite Ha.
    destruct (is_valid qr), (is_valid (_validate_ipfs_data w product)),
      (has_duplicates dup); cbn; intuition discriminate.
  - rewrite Hf. repeat split; intros E; apply in_factors_of; tauto.
Qed.

(** C2.  The confidence score lies between 0 and 1, for the scorer on any
    arguments and for the verdict of any call, and it is 0.0 whenever the
    verdict is negative. *)
Theorem confidence_score_range :
  (forall authentic factors reasons,
      0 <= _calculate_confidence_score authentic factors reasons
      /\ _calculate_confidence_score authentic factors reasons <= 1
      /\ (authentic = false ->
          _calculate_confidence_score authentic factors reasons = 0.0))
  /\ (forall w db product vd provided,
         let r := detect_counterfeit w db product vd provided in
         0 <= confidence_score r
         /\ confidence_score r <= 1
         /\ (is_authentic r = false -> confidence_score r = 0.0)).
Proof.
  split.
  - intros authentic factors reasons.
    destruct (_calculate_confidence_score_bounds authentic factors reasons) as [H0 H1].
    repeat split; try assumption.
    intros ->. reflexivity.
  - intros w db product vd provided r. subst r.
    destruct (detect_counterfeit_try w db product vd provided) as [e|r] eqn:E.
    + rewrite (detect_counterfeit_caught _ _ _ _ _ _ E).
      cbn [detection_error confidence_score]. repeat split; try lra.
    + rewrite (detect_counterfeit_returned _ _ _ _ _ _ E).
      destruct (detect_counterfeit_try_inr _ _ _ _ _ _ E)
        as (qr & dup & pat & man & _ & _ & _ & _ & _ & _ & _ & Hc & _).
      rewrite Hc.
      destruct (_calculate_confidence_score_bounds
                  (is_authentic r) (risk_factors r) (detection_reasons r)) as [H0 H1].
      repeat split; try assumption.
      intros ->. reflexivity.
Qed.

(** C10.  A stored hash that is missing, empty or not 64 characters long
    ends the QR validation at once: the result is invalid with the format
    reason alone, whatever hash was provided and whatever the table holds,
    and the duplicate query is not run (the result does not depend on
    whether it would fail). *)
Theorem bad_format_short_circuits :
  forall db product provided,
    truthy_str (Product.qr_code_hash product) = false
    \/ len (Product.qr_code_hash product) <> 64%nat ->
    exists v,
      _validate_qr_code db product provided = inr v
      /\ is_valid v = false
      /\ reasons v = ["Invalid QR code hash format - possible counterfeit"]
      /\ ~ In "QR code hash mismatch - possible counterfeit" (reasons v)
      /\ ~ In "QR code hash matches stored value" (reasons v)
      /\ ~ In "QR code is unique - no duplicates found" (reasons v)
      /\ forall n, ~ In ("Duplicate QR code detected on " +++ str_of_nat n
                         +++ " other products - counterfeit") (reasons v).
Proof.
  intros db product provided H.
  eexists. split; [apply _validate_qr_code_bad_format; exact H|].
  cbn [is_valid reasons In].
  repeat split; try (intros [E|[]]; discriminate E).
  intros n [E|[]]. discriminate E.
Qed.

Lemma gates_decide_the_verdict_witness :
  let r := detect_counterfeit sample_world (shop [unregistered] [unverified_maker])
             unregistered at_the_shop (Some sha_a) in
  detect_counterfeit_try sample_world (shop [unregistered] [unverified_maker])
    unregistered at_the_shop (Some sha_a) = inr r
  /\ In "blockchain_invalid" (risk_factors r).
Proof.
  intros r.
  assert (H : detect_counterfeit_try sample_world
                (shop [unregistered] [unverified_maker])
                unregistered at_the_shop (Some sha_a) = inr r)
    by (vm_compute; reflexivity).
  split; [exact H|].
  destruct (gates_decide_the_verdict _ _ _ _ _ _ H)
    as (qr & dup & pat & man & _ & _ & _ & _ & _ & _ & Hbc & _).
  apply Hbc. reflexivity.
Defined.

Lemma confidence_score_range_witness :
  let r := detect_counterfeit sample_world (shop [widget] [maker])
             widget at_the_shop (Some sixty_four_z) in
  is_authentic r = false /\ confidence_score r = 0.0.
Proof.
  intros r.
  assert (H : is_authentic r = false) by (vm_compute; reflexivity).
  split; [exact H|].
  destruct confidence_score_range as [_ Hd].
  destruct (Hd sample_world (shop [widget] [maker]) widget at_the_shop
              (Some sixty_four_z)) as (_ & _ & Hz).
  apply Hz. exact H.
Defined.

Lemma bad_format_short_circuits_witness :
  len (Product.qr_code_hash truncated) <> 64%nat
  /\ exists v,
       _validate_qr_code (shop [truncated; withdrawn_twin] [maker]) truncated
         (Some "abc") = inr v
       /\ reasons v = ["Invalid QR code hash format - possible counterfeit"].
Proof.
  assert (H : len (Product.qr_code_hash truncated) <> 64%nat)
    by (vm_compute; discriminate).
  split; [exact H|].
  destruct (bad_format_short_circuits (shop [truncated; withdrawn_twin] [maker])
              truncated (Some "abc") (or_intror H)) as (v & Hv & _ & Hr & _).
  exists v. split; assumption.
Defined.

(** ** The format check *)

(** Against C4 as stated: a stored hash of 64 characters none of which is a
    hexadecimal digit passes the format check, and the verdict is
    positive. *)
Lemma nonhex_fingerprint_is_accepted :
  let r := detect_counterfeit sample_world (shop [mislabelled] [maker])
             mislabelled at_the_shop (Some sixty_four_z) in
  Product.qr_code_hash mislabelled = Some sixty_four_z
  /\ String.length sixty_four_z = 64%nat
  /\ all_hex sixty_four_z = false
  /\ is_authentic r = true
  /\ ~ In "Invalid QR code hash format - possible counterfeit" (detection_reasons r)
  /\ In "QR code hash format is valid" (detection_reasons r).
Proof.
  intros r. repeat split; try (vm_compute; reflexivity).
  - vm_compute. intros H.
    repeat (destruct H as [H|H]; [discriminate H|]). exact H.
  - vm_compute. left. reflexivity.
Qed.

(** C4, amended.  A stored hash that is missing, empty or not 64 characters
    long gives a negative verdict on every call, and when no database
    statement fails the reasons of the verdict contain the format reason.
    The characters of a hash of 64 characters are not examined. *)
Theorem bad_length_fingerprint_is_rejected :
  forall w db product vd provided,
    truthy_str (Product.qr_code_hash product) = false
    \/ len (Product.qr_code_hash product) <> 64%nat ->
    is_authentic (detect_counterfeit w db product vd provided) = false
    /\ ((forall q, raises db q = None) ->
        In "Invalid QR code hash format - possible counterfeit"
           (detection_reasons (detect_counterfeit w db product vd provided))).
Proof.
  intros w db product vd provided Hbad.
  pose proof (_validate_qr_code_bad_format db product provided Hbad) as Hqr.
  assert (Hr : forall r, detect_counterfeit_try w db product vd provided = inr r ->
                 is_authentic r = false
                 /\ In "Invalid QR code hash format - possible counterfeit"
                       (detection_reasons r)).
  { intros r E.
    destruct (detect_counterfeit_try_inr _ _ _ _ _ _ E)
      as (qr & dup & pat & man & Hqr' & _ & _ & _ & Ha & Hd & _).
    rewrite Hqr in Hqr'. injection Hqr' as <-.
    split.
    - rewrite Ha. reflexivity.
    - rewrite Hd. cbn [reasons app]. left. reflexivity. }
  split.
  - destruct (detect_counterfeit_try w db product vd provided) as [e|r] eqn:E.
    + rewrite (detect_counterfeit_caught _ _ _ _ _ _ E). reflexivity.
    + rewrite (detect_counterfeit_returned _ _ _ _ _ _ E). apply Hr. reflexivity.
  - intros Hq.
    destruct (detect_counterfeit_try_total w db product vd provided Hq) as [r E].
    rewrite (detect_counterfeit_returned _ _ _ _ _ _ E). apply Hr. exact E.
Qed.

Lemma bad_length_fingerprint_is_rejected_witness :
  len (Product.qr_code_hash truncated) <> 64%nat
  /\ is_authentic (detect_counterfeit sample_world (shop [truncated] [maker])
                     truncated at_the_shop (Some "abc")) = false
  /\ In "Invalid QR code hash format - possible counterfeit"
        (detection_reasons
           (detect_counterfeit sample_world (shop [truncated] [maker])
              truncated at_the_shop (Some "abc"))).
Proof.
  assert (H : len (Product.qr_code_hash truncated) <> 64%nat)
    by (vm_compute; discriminate).
  split; [exact H|].
  destruct (bad_length_fingerprint_is_rejected sample_world
              (shop [truncated] [maker]) truncated at_the_shop (Some "abc")
              (or_intror H)) as [Ha Hin].
  split; [exact Ha|]. apply Hin. intros q. reflexivity.
Defined.

(** ** The duplicate-hash query *)

Lemma eqb_opt_str_eq (a b : option string) : eqb_opt_str a b = true <-> a = b.
Proof.
  destruct a as [x|], b as [y|]; cbn; try (split; congruence).
  rewrite String.eqb_eq. split; congruence.
Qed.

Lemma same_qr_other_id_spec (product o : Product.t) :
  same_qr_other_id product o = true <->
  Product.qr_code_hash o = Product.qr_code_hash product
  /\ Product.id o <> Product.id product.
Proof.
  unfold same_qr_other_id.
  rewrite andb_true_iff, negb_true_iff, eqb_opt_str_eq, Z.eqb_neq. reflexivity.
Qed.

(** ** The ledger step *)

(** The block of [create_verification] never raises and never turns a
    negative verdict positive.  When the ledger answers that the product
    is not authentic the dict of the detection is made negative and the
    reason appended; the row is made negative with it unless the commit
    fails, which rolls the row back to what it was. *)
Lemma create_verification_ledger_spec db bs vin u product (l : Locals) :
  exists l',
    create_verification_ledger db bs vin u product l = (inr tt, l')
    /\ (is_authentic (detection_result l') = true ->
        is_authentic (detection_result l) = true)
    /\ (Verification.is_authentic (db_verification l') = true ->
        Verification.is_authentic (db_verification l) = true)
    /\ (rolled_back l = false ->
        rolled_back l' = true ->
        db_verification l' = db_verification l
        /\ raises db CommitLedger <> None)
    /\ (forall res,
           truthy_str (User.wallet_address u) = true ->
           truthy_int (Product.blockchain_id product) = true ->
           create_verification_call bs vin u product = inr res ->
           bc_success res = Some true ->
           bc_verification_result res = Some false ->
           is_authentic (detection_result l') = false
           /\ In "Blockchain verification failed - product marked as counterfeit"
                 (detection_reasons (detection_result l'))
           /\ (raises db CommitLedger = None ->
               Verification.is_authentic (db_verification l') = false)).
Proof.
  unfold create_verification_ledger, commit_ledger, try_except, st_bind, lift,
    modify, st_ret.
  destruct (truthy_str (User.wallet_address u)); cbn [andb];
    [destruct (truthy_int (Product.blockchain_id product))|];
    [destruct (create_verification_call bs vin u product) as [e|res];
     [|destruct (bc_success res) as [[|]|] eqn:Es; cbn [get_bool];
       [destruct (bc_verification_result res) as [[|]|] eqn:Er;
        cbn [get_bool negb];
        destruct (raises db CommitLedger) eqn:Ec|..]]|..];
    (eexists; split; [reflexivity|]);
    cbn [on_row on_result set_row_is_authentic set_row_ledger set_is_authentic
         append_reason detection_result db_verification rolled_back is_authentic
         detection_reasons Verification.is_authentic];
    (split; [tauto || discriminate|]);
    (split; [tauto || discriminate|]);
    (split; [intros H0 H1; first [congruence | split; [reflexivity|discriminate]]|]);
    intros res' Hw Hb E Hs Hr; try discriminate Hw; try discriminate Hb;
    try discriminate E;
    try (injection E as <-; congruence);
    repeat split;
    first [ reflexivity
          | rewrite !in_app_iff; cbn [In]; tauto
          | intros Hc; discriminate Hc ].
Qed.

Lemma analyze_ledger_spec bs qr location u product (l : AnalyzeLocals) :
  exists l',
    analyze_ledger bs qr location u product l = (inr tt, l')
    /\ (is_authentic (analyzed l') = true -> is_authentic (analyzed l) = true)
    /\ (forall res,
           truthy_str (User.wallet_address u) = true ->
           truthy_int (Product.blockchain_id product) = true ->
           analyze_call bs qr location u product = inr res ->
           bc_success res = Some true ->
           bc_verification_result res = Some false ->
           is_authentic (analyzed l') = false
           /\ In "Blockchain marked product as counterfeit"
                 (detection_reasons (analyzed l'))).
Proof.
  unfold analyze_ledger, try_except, st_bind, lift, modify, st_ret.
  destruct (truthy_str (User.wallet_address u)); cbn [andb];
    [destruct (truthy_int (Product.blockchain_id product))|];
    [destruct (analyze_call bs qr location u product) as [e|res];
     [|destruct (bc_success res) as [[|]|] eqn:Es; cbn [get_bool negb];
       [destruct (bc_verification_result res) as [[|]|] eqn:Er;
        cbn [get_bool negb]|..]]|..];
    (eexists; split; [reflexivity|]);
    cbn [on_analyzed set_analysis set_is_authentic append_reason analyzed
         is_authentic detection_reasons];
    (split; [tauto || discriminate|]);
    intros res' Hw Hb E Hs Hr; try discriminate Hw; try discriminate Hb;
    try discriminate E;
    try (injection E as <-; congruence);
    repeat split; first [reflexivity | rewrite !in_app_iff; cbn [In]; tauto].
Qed.

(** Both endpoints answer when the product exists and no statement of the
    database fails. *)
Lemma create_verification_returns w db bs vin u product :
  (forall q, raises db q = None) ->
  find (fun p => (Product.id p =? VerificationCreate.product_id vin)%Z) (products db)
  = Some product ->
  exists locals, create_verification w db bs vin u = inr locals.
Proof.
  intros Hq Hfind. unfold create_verification, run.
  rewrite (Hq ProductFirst), Hfind, (Hq CommitVerification). cbn [ret bind].
  match goal with
  | |- context [create_verification_ledger db bs vin u product ?l] =>
      destruct (create_verification_ledger_spec db bs vin u product l)
        as (l' & -> & _)
  end.
  rewrite (Hq RefreshAfterRollback).
  destruct (rolled_back l'); eexists; reflexivity.
Qed.

Lemma analyze_counterfeit_detection_returns w db bs product_id qr location u product :
  (forall q, raises db q = None) ->
  find (fun p => (Product.id p =? product_id)%Z) (products db) = Some product ->
  exists answer,
    analyze_counterfeit_detection w db bs product_id qr location u = inr answer.
Proof.
  intros Hq Hfind. unfold analyze_counterfeit_detection, run.
  rewrite (Hq ProductFirst), Hfind. cbn [ret bind].
  match goal with
  | |- context [analyze_ledger bs qr location u product ?l] =>
      destruct (analyze_ledger_spec bs qr location u product l) as (l' & -> & _)
  end.
  rewrite (Hq VerificationHistoryAll). cbn [ret bind].
  eexists. reflexivity.
Qed.

(** C6.  In both endpoints the verdict after the ledger step is positive
    only if the verdict of [detect_counterfeit] was: this holds for the
    dict of the detection and for the row that [create_verification]
    answers with.  When the ledger is called and answers with success that
    the product is not authentic, the dict is negative afterwards and the
    reason of the endpoint has been appended; in [create_verification] the
    row is negative with it when the commit that follows goes through.
    When that commit fails the session rolls back, and the row answered
    with, if it can be read, carries the verdict of [detect_counterfeit]. *)
Theorem ledger_only_lowers_the_verdict :
  (forall w db bs vin u locals,
      create_verification w db bs vin u = inr locals ->
      exists product,
        find (fun p => (Product.id p =? VerificationCreate.product_id vin)%Z)
             (products db) = Some product
        /\ let local :=
             detect_counterfeit w db product (create_verification_data vin u)
               (VerificationCreate.qr_code_hash vin) in
           (is_authentic (detection_result locals) = true ->
            is_authentic local = true)
           /\ (Verification.is_authentic (db_verification locals) = true ->
               is_authentic local = true)
           /\ (forall res,
                  truthy_str (User.wallet_address u) = true ->
                  truthy_int (Product.blockchain_id product) = true ->
                  create_verification_call bs vin u product = inr res ->
                  bc_success res = Some true ->
                  bc_verification_result res = Some false ->
                  is_authentic (detection_result locals) = false
                  /\ In "Blockchain verification failed - product marked as counterfeit"
                        (detection_reasons (detection_result locals))
                  /\ (raises db CommitLedger = None ->
                      Verification.is_authentic (db_verification locals) = false))
           /\ (rolled_back locals = true ->
               raises db CommitLedger <> None
               /\ Verification.is_authentic (db_verification locals)
                  = is_authentic local))
  /\ (forall w db bs product_id qr location u answer,
         analyze_counterfeit_detection w db bs product_id qr location u = inr answer ->
         exists product,
           find (fun p => (Product.id p =? product_id)%Z) (products db) = Some product
           /\ let local :=
                detect_counterfeit w db product (analyze_data location u) qr in
              (is_authentic (Analysis.detection_result answer) = true ->
               is_authentic local = true)
              /\ (forall res,
                     truthy_str (User.wallet_address u) = true ->
                     truthy_int (Product.blockchain_id product) = true ->
                     analyze_call bs qr location u product = inr res ->
                     bc_success res = Some true ->
                     bc_verification_result res = Some false ->
                     is_authentic (Analysis.detection_result answer) = false
                     /\ In "Blockchain marked product as counterfeit"
                           (detection_reasons (Analysis.detection_result answer)))).
Proof.
  split.
  - intros w db bs vin u locals. unfold create_verification, run.
    destruct (raises db ProductFirst); [discriminate|]. cbn [ret bind].
    destruct (find _ (products db)) as [product|]; [|discriminate].
    destruct (raises db CommitVerification); [discriminate|]. cbn [ret bind].
    match goal with
    | |- context [create_verification_ledger db bs vin u product ?l] =>
        destruct (create_verification_ledger_spec db bs vin u product l)
          as (l' & -> & Hr & Hv & Hroll & Hflip)
    end.
    intros E.
    assert (El : locals = l').
    { destruct (rolled_back l'); [|injection E as <-; reflexivity].
      destruct (raises db RefreshAfterRollback); [discriminate E|].
      injection E as <-. reflexivity. }
    subst l'.
    exists product. split; [reflexivity|].
    cbn [detection_result db_verification Verification.is_authentic] in Hr, Hv.
    cbv zeta. split; [exact Hr|]. split; [exact Hv|]. split; [exact Hflip|].
    intros Hrb. destruct (Hroll eq_refl Hrb) as [Hrow Hne].
    split; [exact Hne|]. rewrite Hrow. reflexivity.
  - intros w db bs product_id qr location u answer.
    unfold analyze_counterfeit_detection, run.
    destruct (raises db ProductFirst); [discriminate|]. cbn [ret bind].
    destruct (find _ (products db)) as [product|]; [|discriminate].
    match goal with
    | |- context [analyze_ledger bs qr location u product ?l] =>
        destruct (analyze_ledger_spec bs qr location u product l)
          as (l' & -> & Hr & Hflip)
    end.
    destruct (raises db VerificationHistoryAll); [discriminate|]. cbn [ret bind].
    intros E. injection E as <-.
    exists product. split; [reflexivity|].
    cbn [analyzed Analysis.detection_result] in *.
    cbv zeta. split; [exact Hr|]. exact Hflip.
Qed.

Lemma ledger_only_lowers_the_verdict_witness :
  (exists locals,
      create_verification sample_world (shop [widget] [maker]) denying_ledger
        scan_of_widget maker = inr locals
      /\ is_authentic
           (detect_counterfeit sample_world (shop [widget] [maker]) widget
              (create_verification_data scan_of_widget maker) (Some sha_a)) = true
      /\ is_authentic (detection_result locals) = false
      /\ Verification.is_authentic (db_verification locals) = false
      /\ In "Blockchain verification failed - product marked as counterfeit"
            (detection_reasons (detection_result locals)))
  /\ (exists answer,
         analyze_counterfeit_detection sample_world (shop [widget] [maker])
           denying_ledger 1 (Some sha_a) (Some "Shop") maker = inr answer
         /\ is_authentic
              (detect_counterfeit sample_world (shop [widget] [maker]) widget
                 (analyze_data (Some "Shop") maker) (Some sha_a)) = true
         /\ is_authentic (Analysis.detection_result answer) = false
         /\ In "Blockchain marked product as counterfeit"
               (detection_reasons (Analysis.detection_result answer))).
Proof.
  destruct ledger_only_lowers_the_verdict as [Hcreate Hanalyze].
  split.
  - destruct (create_verification sample_world (shop [widget] [maker]) denying_ledger
                scan_of_widget maker) as [e|locals] eqn:H;
      [vm_compute in H; discriminate H|].
    exists locals. split; [reflexivity|].
    split; [vm_compute; reflexivity|].
    destruct (Hcreate _ _ _ _ _ _ H) as (product & Hfind & _ & _ & Hflip & _).
    vm_compute in Hfind. injection Hfind as <-.
    destruct (Hflip {| bc_success := Some true;
                       bc_verification_result := Some false;
                       bc_verification_id := None;
                       bc_transaction_hash := Some "0x5d1e";
                       bc_block_number := Some 12%Z |}
                eq_refl eq_refl eq_refl eq_refl eq_refl) as (Ha & Hin & Hrow).
    split; [exact Ha|]. split; [apply Hrow; reflexivity|exact Hin].
  - destruct (analyze_counterfeit_detection sample_world (shop [widget] [maker])
                denying_ledger 1 (Some sha_a) (Some "Shop") maker)
      as [e|answer] eqn:H; [vm_compute in H; discriminate H|].
    exists answer. split; [reflexivity|].
    split; [vm_compute; reflexivity|].
    destruct (Hanalyze _ _ _ _ _ _ _ _ H) as (product & Hfind & _ & Hflip).
    vm_compute in Hfind. injection Hfind as <-.
    apply (Hflip {| bc_success := Some true;
                    bc_verification_result := Some false;
                    bc_verification_id := None;
                    bc_transaction_hash := Some "0x5d1e";
                    bc_block_number := Some 12%Z |}); reflexivity.
Defined.

(** ** The scenarios of a fresh product *)

Lemma filter_none {A} (f : A -> bool) (l : list A) :
  (forall x, In x l -> f x = false) -> filter f l = [].
Proof.
  induction l as [|a l IH]; intros H; cbn [filter]; [reflexivity|].
  rewrite (H a (or_introl eq_refl)). apply IH.
  intros x Hx. apply H. right. exact Hx.
Qed.

Lemma truthy_of_length (h : string) : String.length h = 64%nat -> truthy_str (Some h) = true.
Proof. destruct h; [discriminate|reflexivity]. Qed.

(** A valid IPFS validation has one of two reasons. *)
Lemma _validate_ipfs_data_valid w product :
  is_valid (_validate_ipfs_data w product) = true ->
  (truthy_str (Product.ipfs_hash product) = false
   /\ _validate_ipfs_data w product
      = {| is_valid := true;
           reasons := ["No IPFS data available - limited verification"] |})
  \/ (truthy_str (Product.ipfs_hash product) = true
      /\ _validate_ipfs_data w product
         = {| is_valid := true; reasons := ["IPFS data integrity verified"] |}).
Proof.
  unfold _validate_ipfs_data.
  destruct (truthy_str (Product.ipfs_hash product)); cbn [negb].
  - intros H. right. split; [reflexivity|]. revert H.
    destruct (retrieve_product_data w _) as [e|res]; cbn [bind catch];
      [discriminate|].
    destruct (success res); cbn [negb]; [|discriminate].
    destruct (eqb_opt_str (ipfs_product_name res) _); cbn [negb]; [|discriminate].
    destruct (eqb_opt_str (ipfs_batch_number res) _); cbn [negb]; [|discriminate].
    reflexivity.
  - intros _. left. split; reflexivity.
Qed.

Section FreshProduct.

Variables (w : World) (db : Session) (product : Product.t) (vd : VerificationData).
Variable h : string.

Hypothesis stored : Product.qr_code_hash product = Some h.
Hypothesis well_formed : String.length h = 64%nat.
Hypothesis unique :
  forall o, In o (products db) ->
            Product.qr_code_hash o = Some h -> Product.id o = Product.id product.
Hypothesis no_batch_duplicate :
  forall o, In o (products db) -> same_batch_other_id product o = false.
Hypothesis never_verified :
  forall v, In v (verifications db) ->
            Verification.product_id v <> Product.id product.
Hypothesis named : truthy_str (Product.product_name product) = true.
Hypothesis batched : truthy_str (Product.batch_number product) = true.
Variable made : Z.
Hypothesis dated : Product.manufacturing_date product = Some made.
Hypothesis not_future : (made <= utcnow w AtFutureCheck)%Z.
Hypothesis not_old : (utcnow w AtAgeCheck - timedelta_days (365 * 10) <= made)%Z.
Hypothesis no_failing_statement : forall q, raises db q = None.
Variable manufacturer : User.t.
Hypothesis found :
  find (fun u => (User.id u =? Product.manufacturer_id product)%Z) (users db)
  = Some manufacturer.
Hypothesis active : User.is_active manufacturer = true.

Lemma fresh_qr_validation :
  _validate_qr_code db product (Some h)
  = inr {| is_valid := true;
           reasons := ["QR code hash format is valid";
                       "QR code hash matches stored value";
                       "QR code is unique - no duplicates found"] |}.
Proof.
  pose proof (truthy_of_length h well_formed) as Ht.
  rewrite (_validate_qr_code_good_format db product (Some h)).
  - rewrite Ht, stored. cbn [eqb_opt_str]. rewrite String.eqb_refl.
    rewrite (filter_none (same_qr_other_id product)); [reflexivity|].
    intros o Ho. destruct (same_qr_other_id product o) eqn:E; [|reflexivity].
    apply same_qr_other_id_spec in E. destruct E as [E1 E2].
    exfalso. apply E2. apply unique; [exact Ho|]. rewrite E1. exact stored.
  - rewrite stored. exact Ht.
  - unfold len. rewrite stored. exact well_formed.
  - apply no_failing_statement.
Qed.

Lemma fresh_duplicate_check :
  _check_duplicates db product
  = inr {| has_duplicates := false;
           duplicate_reasons :=
             ["No duplicate products found with same batch number"] |}.
Proof.
  unfold _check_duplicates.
  rewrite (run_ok _ _ _ (no_failing_statement _)).
  rewrite (filter_none _ _ no_batch_duplicate). reflexivity.
Qed.

Lemma fresh_pattern_analysis :
  _analyze_verification_patterns w db product
  = inr {| suspicious_pattern := false;
           pattern_reasons := ["Normal verification pattern: 0 in 30 days"] |}.
Proof.
  unfold _analyze_verification_patterns.
  rewrite (run_ok _ _ _ (no_failing_statement _)).
  rewrite (filter_none (recent_for w product)); [reflexivity|].
  intros v Hv. unfold recent_for.
  apply never_verified in Hv. apply Z.eqb_neq in Hv. rewrite Hv. reflexivity.
Qed.

Lemma fresh_consistency_check :
  _check_data_consistency w product vd
  = {| is_consistent := true;
       consistency_reasons := ["Product information is complete";
                               "Manufacturing date is reasonable"] |}.
Proof.
  unfold _check_data_consistency. rewrite named, batched, dated. cbn [negb orb].
  replace (utcnow w AtFutureCheck <? made)%Z with false
    by (symmetry; apply Z.ltb_ge; exact not_future).
  replace (made <? utcnow w AtAgeCheck - timedelta_days (365 * 10))%Z with false
    by (symmetry; apply Z.ltb_ge; exact not_old).
  reflexivity.
Qed.

Lemma fresh_manufacturer_validation :
  _validate_manufacturer db product
  = inr {| is_valid := true;
           reasons := [if User.is_verified manufacturer
                       then "Manufacturer account is valid and verified"
                       else "Manufacturer account is not verified"] |}.
Proof.
  unfold _validate_manufacturer.
  rewrite (run_ok _ _ _ (no_failing_statement _)). cbn [bind].
  rewrite found, active. cbn [negb].
  destruct (User.is_verified manufacturer); reflexivity.
Qed.

(** The verdict of a fresh product, given how the three remaining checks
    turn out. *)
Lemma fresh_verdict (ipfs bc : Validation) :
  _validate_ipfs_data w product = ipfs ->
  is_valid ipfs = true ->
  _validate_blockchain_data product = bc ->
  let factors := if is_valid bc then [] else ["blockchain_invalid"] in
  let all_reasons :=
    ["QR code hash format is valid";
     "QR code hash matches stored value";
     "QR code is unique - no duplicates found"]
    ++ reasons ipfs ++ reasons bc
    ++ ["No duplicate products found with same batch number";
        "Normal verification pattern: 0 in 30 days";
        if User.is_verified manufacturer
        then "Manufacturer account is valid and verified"
        else "Manufacturer account is not verified";
        "Product information is complete";
        "Manufacturing date is reasonable"] in
  let r := detect_counterfeit w db product vd (Some h) in
  is_authentic r = true
  /\ risk_factors r = factors
  /\ detection_reasons r = all_reasons
  /\ confidence_score r = _calculate_confidence_score true factors all_reasons
  /\ risk_level r
     = _calculate_risk_level factors
         (_calculate_confidence_score true factors all_reasons).
Proof.
  intros Hipfs Hvalid Hbc factors all_reasons r.
  destruct (detect_counterfeit_try_total w db product vd (Some h)
              no_failing_statement) as [r' E].
  assert (Hr : r = r') by (apply detect_counterfeit_returned; exact E).
  clearbody r. subst r'.
  destruct (detect_counterfeit_try_inr _ _ _ _ _ _ E)
    as (qr & dup & pat & man & Hqr & Hdup & Hpat & Hman & Ha & Hd & Hf & Hc & Hl).
  rewrite fresh_qr_validation in Hqr. injection Hqr as <-.
  rewrite fresh_duplicate_check in Hdup. injection Hdup as <-.
  rewrite fresh_pattern_analysis in Hpat. injection Hpat as <-.
  rewrite fresh_manufacturer_validation in Hman. injection Hman as <-.
  rewrite fresh_consistency_check, Hipfs, Hbc in *.
  cbn [is_valid reasons has_duplicates duplicate_reasons pattern_reasons
       consistency_reasons negb andb] in Ha, Hd.
  unfold factors_of in Hf.
  cbn [is_valid has_duplicates suspicious_pattern is_consistent] in Hf.
  rewrite Hvalid in Ha, Hf. cbn [app] in Hf. rewrite app_nil_r in Hf.
  assert (Hd' : detection_reasons r = all_reasons).
  { rewrite Hd. unfold all_reasons. cbn [app]. reflexivity. }
  rewrite Hl, Hc, Ha, Hf, Hd'. repeat split; reflexivity.
Qed.

(** C7, amended.  A fresh product with a unique stored hash of 64
    characters, the same hash provided, a blockchain id, an active and
    verified manufacturer, no IPFS hash, name and batch number present, a
    manufacturing date within the last ten years and no verification on
    record is authentic with confidence 0.85 and risk level low: the reason
    given for the missing IPFS data contains "limited" and costs 0.05. *)
Theorem fresh_registered_product_verdict :
  truthy_int (Product.blockchain_id product) = true ->
  User.is_verified manufacturer = true ->
  truthy_str (Product.ipfs_hash product) = false ->
  let r := detect_counterfeit w db product vd (Some h) in
  is_authentic r = true
  /\ confidence_score r == 0.85
  /\ risk_level r = "low"
  /\ risk_factors r = []
  /\ In "No IPFS data available - limited verification" (detection_reasons r).
Proof.
  intros Hbc Hver Hipfs r.
  destruct (fresh_verdict
              {| is_valid := true;
                 reasons := ["No IPFS data available - limited verification"] |}
              {| is_valid := true; reasons := ["Product registered on blockchain"] |})
    as (Ha & Hf & Hd & Hc & Hl).
  - unfold _validate_ipfs_data. rewrite Hipfs. reflexivity.
  - reflexivity.
  - unfold _validate_blockchain_data. rewrite Hbc. reflexivity.
  - fold r in Ha, Hf, Hd, Hc, Hl.
    rewrite Hver in Hd, Hc, Hl.
    rewrite Ha, Hf, Hd, Hl, Hc.
    repeat split; try (vm_compute; reflexivity).
    cbn. tauto.
Qed.

(** C8, amended.  With no blockchain id and a manufacturer that is active
    but not verified, everything else as for the fresh product and the
    IPFS validation valid, the product is authentic and the only risk
    factor is "blockchain_invalid": the unverified manufacturer adds its
    reason and no risk factor.  The confidence is 0.65 and the risk level
    medium when there is no IPFS hash, 0.7 and low when the IPFS data was
    verified. *)
Theorem unregistered_unverified_product_verdict :
  truthy_int (Product.blockchain_id product) = false ->
  User.is_verified manufacturer = false ->
  is_valid (_validate_ipfs_data w product) = true ->
  let r := detect_counterfeit w db product vd (Some h) in
  is_authentic r = true
  /\ risk_factors r = ["blockchain_invalid"]
  /\ ~ In "manufacturer_invalid" (risk_factors r)
  /\ In "Manufacturer account is not verified" (detection_reasons r)
  /\ (truthy_str (Product.ipfs_hash product) = false ->
      confidence_score r == 0.65 /\ risk_level r = "medium")
  /\ (truthy_str (Product.ipfs_hash product) = true ->
      confidence_score r == 0.7 /\ risk_level r = "low").
Proof.
  intros Hbc Hver Hvalid r.
  assert (Hb : _validate_blockchain_data product
               = {| is_valid := false;
                    reasons := ["Product not registered on blockchain"] |})
    by (unfold _validate_blockchain_data; rewrite Hbc; reflexivity).
  destruct (_validate_ipfs_data_valid w product Hvalid) as [[Ht Hi]|[Ht Hi]];
    destruct (fresh_verdict _ _ Hi eq_refl Hb) as (Ha & Hf & Hd & Hc & Hl);
    fold r in Ha, Hf, Hd, Hc, Hl;
    rewrite Hver in Hd, Hc, Hl;
    rewrite Ha, Hf, Hd, Hl, Hc, Ht;
    (split; [reflexivity|]); (split; [reflexivity|]);
    (split; [intros [E|[]]; discriminate E|]);
    (split; [cbn; tauto|]);
    (split; intros E; try discriminate E; split; vm_compute; reflexivity).
Qed.

End FreshProduct.

(** Against C7 as stated: the fresh registered [widget], verified with its
    own hash by a shop that has no other row, scores 0.85 and not 0.9. *)
Lemma fresh_widget_scores_085 :
  let r := detect_counterfeit sample_world (shop [widget] [maker]) widget
             at_the_shop (Some sha_a) in
  all_hex sha_a = true
  /\ r = {| is_authentic := true;
            detection_reasons :=
              ["QR code hash format is valid";
               "QR code hash matches stored value";
               "QR code is unique - no duplicates found";
               "No IPFS data available - limited verification";
               "Product registered on blockchain";
               "No duplicate products found with same batch number";
               "Normal verification pattern: 0 in 30 days";
               "Manufacturer account is valid and verified";
               "Product information is complete";
               "Manufacturing date is reasonable"];
            confidence_score := 0.85;
            risk_level := "low";
            risk_factors := [];
            validation_summary :=
              [("qr_valid", true); ("blockchain_valid", true);
               ("no_duplicates", true); ("normal_pattern", true);
               ("manufacturer_valid", true); ("data_consistent", true)] |}
  /\ ~ confidence_score r == 0.9.
Proof.
  intros r. split; [reflexivity|]. split; [vm_compute; reflexivity|].
  vm_compute. intros E. discriminate E.
Qed.

Lemma fresh_registered_product_verdict_witness :
  let r := detect_counterfeit sample_world (shop [widget] [maker]) widget
             at_the_shop (Some sha_a) in
  is_authentic r = true
  /\ confidence_score r == 0.85
  /\ risk_level r = "low"
  /\ risk_factors r = []
  /\ In "No IPFS data available - limited verification" (detection_reasons r).
Proof.
  apply (fresh_registered_product_verdict sample_world (shop [widget] [maker])
           widget at_the_shop sha_a) with (made := sample_made) (manufacturer := maker);
    try reflexivity.
  - intros o [<-|[]] _. reflexivity.
  - intros o [<-|[]]. reflexivity.
  - intros v [].
  - vm_compute. intros E. discriminate E.
  - vm_compute. intros E. discriminate E.
Defined.

(** Against C8 as stated: [widget] without a blockchain id and with an
    unverified manufacturer scores 0.65 and not 0.5, and no manufacturer
    risk factor is recorded. *)
Lemma unregistered_widget_scores_065 :
  let r := detect_counterfeit sample_world (shop [unregistered] [unverified_maker])
             unregistered at_the_shop (Some sha_a) in
  Product.blockchain_id unregistered = None
  /\ User.is_active unverified_maker = true
  /\ User.is_verified unverified_maker = false
  /\ r = {| is_authentic := true;
            detection_reasons :=
              ["QR code hash format is valid";
               "QR code hash matches stored value";
               "QR code is unique - no duplicates found";
               "No IPFS data available - limited verification";
               "Product not registered on blockchain";
               "No duplicate products found with same batch number";
               "Normal verification pattern: 0 in 30 days";
               "Manufacturer account is not verified";
               "Product information is complete";
               "Manufacturing date is reasonable"];
            confidence_score := 0.65;
            risk_level := "medium";
            risk_factors := ["blockchain_invalid"];
            validation_summary :=
              [("qr_valid", true); ("blockchain_valid", false);
               ("no_duplicates", true); ("normal_pattern", true);
               ("manufacturer_valid", true); ("data_consistent", true)] |}
  /\ ~ confidence_score r == 0.5
  /\ ~ In "manufacturer_invalid" (risk_factors r).
Proof.
  intros r. do 3 (split; [reflexivity|]).
  split; [vm_compute; reflexivity|].
  split.
  - vm_compute. intros E. discriminate E.
  - vm_compute. intros [E|[]]. discriminate E.
Qed.

Lemma unregistered_unverified_product_verdict_witness :
  let r := detect_counterfeit sample_world (shop [unregistered] [unverified_maker])
             unregistered at_the_shop (Some sha_a) in
  is_authentic r = true
  /\ risk_factors r = ["blockchain_invalid"]
  /\ confidence_score r == 0.65
  /\ risk_level r = "medium".
Proof.
  intros r.
  destruct (unregistered_unverified_product_verdict sample_world
              (shop [unregistered] [unverified_maker]) unregistered at_the_shop sha_a)
    with (made := sample_made) (manufacturer := unverified_maker)
    as (Ha & Hf & _ & _ & Hnone & _);
    try reflexivity.
  - intros o [<-|[]] _. reflexivity.
  - intros o [<-|[]]. reflexivity.
  - intros v [].
  - vm_compute. intros E. discriminate E.
  - vm_compute. intros E. discriminate E.
  - destruct (Hnone eq_refl) as [Hc Hl].
    repeat split; assumption.
Defined.

(** ** The age of a product *)


Lemma round2_id (x : Q) : hundredths x -> round2 x == x.
Proof.
  intros [k Hk]. unfold round2, round_half_even.
  rewrite (Qfloor_comp _ _ Hk), Qfloor_Z.
  assert (E : Qcompare (x * 100 - inject_Z k) (1 # 2) = Lt)
    by (apply (proj1 (Qlt_alt _ _)); lra).
  rewrite E, Qmake_Qdiv, <- Hk. field.
Qed.

Lemma hundredths_tenths (a : Z) : hundredths (a # 10).
Proof. exists (a * 10)%Z. unfold Qeq, inject_Z. simpl. lia. Qed.

Lemma hundredths_plus (x y : Q) : hundredths x -> hundredths y -> hundredths (x + y).
Proof.
  intros [k Hk] [j Hj]. exists (k + j)%Z. rewrite inject_Z_plus. lra.
Qed.

Lemma hundredths_minus (x y : Q) : hundredths x -> hundredths y -> hundredths (x - y).
Proof.
  intros [k Hk] [j Hj]. exists (k - j)%Z.
  unfold Z.sub. rewrite inject_Z_plus, inject_Z_opp. lra.
Qed.

Lemma hundredths_py_max (x : Q) : hundredths x -> hundredths (py_max 0.0 x).
Proof.
  intros H. unfold py_max. destruct (Qlt_le_dec 0.0 x); [exact H|].
  exists 0%Z. reflexivity.
Qed.

Lemma hundredths_get (factor : string) : hundredths (get penalties factor 0.1).
Proof.
  unfold penalties. cbn [get].
  repeat match goal with
         | |- context [if ?c then _ else _] => destruct c
         end; apply hundredths_tenths.
Qed.

Lemma hundredths_fold (l : list Q) (acc : Q) :
  (forall x, In x l -> hundredths x) -> hundredths acc ->
  hundredths (fold_left Qplus l acc).
Proof.
  revert acc. induction l as [|y l IH]; intros acc Hl Hacc; cbn [fold_left].
  - exact Hacc.
  - apply IH.
    + intros x Hx. apply Hl. right. exact Hx.
    + apply hundredths_plus; [exact Hacc|]. apply Hl. left. reflexivity.
Qed.

Lemma hundredths_warnings (n : nat) : hundredths (inject_Z (Z.of_nat n) * 0.05).
Proof.
  exists (5 * Z.of_nat n)%Z. rewrite inject_Z_mult.
  change (inject_Z 5) with 5%Q. lra.
Qed.

(** The score of a positive verdict before rounding is already a whole
    number of hundredths. *)
Lemma _calculate_confidence_score_authentic (factors all_reasons : list string) :
  _calculate_confidence_score true factors all_reasons
  == py_max 0.0
       (0.9 - sumQ (map (fun factor => get penalties factor 0.1) factors)
        - inject_Z (Z.of_nat (List.length (filter is_warning all_reasons))) * 0.05).
Proof.
  unfold _calculate_confidence_score. cbn [negb].
  apply round2_id, hundredths_py_max, hundredths_minus;
    [apply hundredths_minus|apply hundredths_warnings].
  - apply (hundredths_tenths 9).
  - unfold sumQ. apply hundredths_fold; [|exists 0%Z; reflexivity].
    intros x Hx. apply in_map_iff in Hx. destruct Hx as [f [<- _]].
    apply hundredths_get.
Qed.

Lemma _check_data_consistency_dated w product vd :
  exists consistent first,
    forall d,
      _check_data_consistency w (with_manufacturing_date (Some d) product) vd
      = if (utcnow w AtFutureCheck <? d)%Z then
          {| is_consistent := false;
             consistency_reasons := first ++ ["Manufacturing date is in the future"] |}
        else if (d <? utcnow w AtAgeCheck - timedelta_days (365 * 10))%Z then
          {| is_consistent := consistent;
             consistency_reasons :=
               first ++ ["Product is very old - verify authenticity"] |}
        else
          {| is_consistent := consistent;
             consistency_reasons := first ++ ["Manufacturing date is reasonable"] |}.
Proof.
  unfold _check_data_consistency, with_manufacturing_date.
  cbn [Product.product_name Product.batch_number Product.manufacturing_date].
  destruct (negb (truthy_str (Product.product_name product))
            || negb (truthy_str (Product.batch_number product)));
    eexists; eexists; intros d0;
    destruct (utcnow w AtFutureCheck <? d0)%Z;
    try destruct (d0 <? utcnow w AtAgeCheck - timedelta_days (365 * 10))%Z;
    reflexivity.
Qed.

(** Against C9 as stated: [widget] made in 1970 scores 0.8 where [widget]
    made five weeks ago scores 0.85; both are authentic and they differ in
    the manufacturing date alone. *)
Lemma antique_widget_scores_less :
  let db := shop [widget] [maker] in
  let r_old := detect_counterfeit sample_world db antique at_the_shop (Some sha_a) in
  let r_new := detect_counterfeit sample_world db widget at_the_shop (Some sha_a) in
  antique = with_manufacturing_date (Some 0%Z) widget
  /\ widget = with_manufacturing_date (Some sample_made) widget
  /\ is_authentic r_old = true
  /\ is_authentic r_new = true
  /\ confidence_score r_old == 0.8
  /\ confidence_score r_new == 0.85
  /\ In "Product is very old - verify authenticity" (detection_reasons r_old)
  /\ ~ confidence_score r_old == confidence_score r_new.
Proof.
  intros db r_old r_new.
  do 6 (split; [vm_compute; reflexivity|]).
  split.
  - vm_compute. do 9 right. left. reflexivity.
  - vm_compute. intros E. discriminate E.
Qed.

(** C9, amended.  Of two products that differ in the manufacturing date
    alone, one made more than ten years ago and one within the last ten
    years, the older gets the same verdict and the same risk factors: its
    age adds no risk factor.  Its reason "Product is very old - verify
    authenticity" contains "old" and counts as a warning, so when the
    verdict is positive its confidence is that of the other lowered by
    0.05, and not below 0. *)
Theorem old_product_costs_one_warning :
  forall w db product vd provided old recent r_old r_new,
    (old < utcnow w AtAgeCheck - timedelta_days (365 * 10))%Z ->
    (old <= utcnow w AtFutureCheck)%Z ->
    (utcnow w AtAgeCheck - timedelta_days (365 * 10) <= recent)%Z ->
    (recent <= utcnow w AtFutureCheck)%Z ->
    detect_counterfeit_try w db (with_manufacturing_date (Some old) product)
      vd provided = inr r_old ->
    detect_counterfeit_try w db (with_manufacturing_date (Some recent) product)
      vd provided = inr r_new ->
    is_authentic r_old = is_authentic r_new
    /\ risk_factors r_old = risk_factors r_new
    /\ (exists common,
           detection_reasons r_old
           = common ++ ["Product is very old - verify authenticity"]
           /\ detection_reasons r_new
              = common ++ ["Manufacturing date is reasonable"])
    /\ (is_authentic r_new = true ->
        confidence_score r_old == py_max 0.0 (confidence_score r_new - 0.05)).
Proof.
  intros w db product vd provided old recent r_old r_new
         Hold Hold' Hrec Hrec' Eold Enew.
  destruct (detect_counterfeit_try_inr _ _ _ _ _ _ Eold)
    as (qr & dup & pat & man & Hqr & Hdup & Hpat & Hman & Ha & Hd & Hf & Hc & _).
  destruct (detect_counterfeit_try_inr _ _ _ _ _ _ Enew)
    as (qr' & dup' & pat' & man' & Hqr' & Hdup' & Hpat' & Hman' & Ha' & Hd' & Hf'
        & Hc' & _).
  change (_validate_qr_code db product provided = inr qr) in Hqr.
  change (_validate_qr_code db product provided = inr qr') in Hqr'.
  change (_check_duplicates db product = inr dup) in Hdup.
  change (_check_duplicates db product = inr dup') in Hdup'.
  change (_analyze_verification_patterns w db product = inr pat) in Hpat.
  change (_analyze_verification_patterns w db product = inr pat') in Hpat'.
  change (_validate_manufacturer db product = inr man) in Hman.
  change (_validate_manufacturer db product = inr man') in Hman'.
  rewrite Hqr in Hqr'. injection Hqr' as <-.
  rewrite Hdup in Hdup'. injection Hdup' as <-.
  rewrite Hpat in Hpat'. injection Hpat' as <-.
  rewrite Hman in Hman'. injection Hman' as <-.
  change (_validate_ipfs_data w (with_manufacturing_date (Some old) product))
    with (_validate_ipfs_data w product) in *.
  change (_validate_ipfs_data w (with_manufacturing_date (Some recent) product))
    with (_validate_ipfs_data w product) in *.
  change (_validate_blockchain_data (with_manufacturing_date (Some old) product))
    with (_validate_blockchain_data product) in *.
  change (_validate_blockchain_data (with_manufacturing_date (Some recent) product))
    with (_validate_blockchain_data product) in *.
  destruct (_check_data_consistency_dated w product vd) as (consistent & first & Hcon).
  rewrite Hcon in Hd, Hf, Hd', Hf'.
  apply Z.ltb_lt in Hold. apply Z.ltb_ge in Hold', Hrec, Hrec'.
  rewrite Hold, Hold' in Hd, Hf. rewrite Hrec, Hrec' in Hd', Hf'.
  cbn [consistency_reasons] in Hd, Hd'.
  unfold factors_of in Hf, Hf'. cbn [is_consistent] in Hf, Hf'.
  set (common := reasons qr ++ reasons (_validate_ipfs_data w product)
                 ++ reasons (_validate_blockchain_data product)
                 ++ duplicate_reasons dup ++ pattern_reasons pat ++ reasons man
                 ++ first).
  assert (Hdo : detection_reasons r_old
                = common ++ ["Product is very old - verify authenticity"])
    by (rewrite Hd; unfold common; rewrite <- !app_assoc; reflexivity).
  assert (Hdn : detection_reasons r_new
                = common ++ ["Manufacturing date is reasonable"])
    by (rewrite Hd'; unfold common; rewrite <- !app_assoc; reflexivity).
  split; [rewrite Ha, Ha'; reflexivity|].
  split; [rewrite Hf, Hf'; reflexivity|].
  split; [exists common; split; assumption|].
  intros Hauth.
  assert (Hauth' : is_authentic r_old = true) by (rewrite Ha, <- Ha'; exact Hauth).
  rewrite Hc, Hc', Hauth, Hauth', Hdo, Hdn.
  rewrite (Hf : risk_factors r_old = _), <- (Hf' : risk_factors r_new = _).
  pose proof (_calculate_confidence_score_authentic (risk_factors r_new)
                (common ++ ["Product is very old - verify authenticity"])) as So.
  pose proof (_calculate_confidence_score_authentic (risk_factors r_new)
                (common ++ ["Manufacturing date is reasonable"])) as Sn.
  rewrite filter_app, length_app, Nat2Z.inj_add, inject_Z_plus in So, Sn.
  change (inject_Z (Z.of_nat (List.length
            (filter is_warning ["Product is very old - verify authenticity"]))))
    with 1%Q in So.
  change (inject_Z (Z.of_nat (List.length
            (filter is_warning ["Manufacturing date is reasonable"]))))
    with 0%Q in Sn.
  revert So Sn.
  generalize (_calculate_confidence_score true (risk_factors r_new)
                (common ++ ["Product is very old - verify authenticity"])).
  generalize (_calculate_confidence_score true (risk_factors r_new)
                (common ++ ["Manufacturing date is reasonable"])).
  generalize (sumQ (map (fun factor => get penalties factor 0.1) (risk_factors r_new))).
  generalize (inject_Z (Z.of_nat (List.length (filter is_warning common)))).
  intros W T B A. unfold py_max.
  repeat match goal with
         | |- context [Qlt_le_dec ?a ?b] => destruct (Qlt_le_dec a b)
         end; intros So Sn; lra.
Qed.

Lemma old_product_costs_one_warning_witness :
  let db := shop [widget] [maker] in
  let r_old := detect_counterfeit sample_world db antique at_the_shop (Some sha_a) in
  let r_new := detect_counterfeit sample_world db widget at_the_shop (Some sha_a) in
  is_authentic r_new = true
  /\ risk_factors r_old = risk_factors r_new
  /\ confidence_score r_old == py_max 0.0 (confidence_score r_new - 0.05).
Proof.
  intros db r_old r_new.
  assert (Hauth : is_authentic r_new = true) by (vm_compute; reflexivity).
  destruct (old_product_costs_one_warning sample_world db widget at_the_shop
              (Some sha_a) 0%Z sample_made r_old r_new)
    as (_ & Hf & _ & Hc).
  - vm_compute. reflexivity.
  - vm_compute. intros E. discriminate E.
  - vm_compute. intros E. discriminate E.
  - vm_compute. intros E. discriminate E.
  - vm_compute. reflexivity.
  - vm_compute. reflexivity.
  - split; [exact Hauth|]. split; [exact Hf|]. apply Hc. exact Hauth.
Defined.

(** ** Exceptions *)






(** ** The duplicate-hash query under the constraint of the column *)



(** * Further properties of the service *)

(** ** The risk level *)

Lemma Qltb_lt (a b : Q) : Qltb a b = true <-> a < b.
Proof.
  unfold Qltb. rewrite negb_true_iff. split.
  - intros H. apply Qnot_le_lt. intros Hle.
    apply Qle_bool_iff in Hle. congruence.
  - intros H. destruct (Qle_bool b a) eqn:E; [|reflexivity].
    apply Qle_bool_iff in E. exfalso. exact (Qlt_not_le _ _ H E).
Qed.

Lemma Qltb_ge (a b : Q) : Qltb a b = false <-> b <= a.
Proof.
  unfold Qltb. rewrite negb_false_iff. apply Qle_bool_iff.
Qed.

Lemma _calculate_risk_level_spec (factors : list string) (score : Q) :
  (_calculate_risk_level factors score = "high" <-> score < 0.3)
  /\ (_calculate_risk_level factors score = "medium" <-> 0.3 <= score /\ score < 0.7)
  /\ (_calculate_risk_level factors score = "low" <-> 0.7 <= score).
Proof.
  unfold _calculate_risk_level.
  destruct (Qltb score 0.3) eqn:E3; [apply Qltb_lt in E3|apply Qltb_ge in E3];
    (destruct (Qltb score 0.7) eqn:E7; [apply Qltb_lt in E7|apply Qltb_ge in E7]);
    repeat split; intros;
    repeat match goal with H : _ /\ _ |- _ => destruct H end;
    try discriminate; try reflexivity; lra.
Qed.

(** The verdict of every call carries the score and the level the two
    helpers compute from its own fields. *)
Lemma verdict_is_scored w db product vd provided :
  let r := detect_counterfeit w db product vd provided in
  confidence_score r
  = _calculate_confidence_score (is_authentic r) (risk_factors r) (detection_reasons r)
  /\ risk_level r = _calculate_risk_level (risk_factors r) (confidence_score r).
Proof.
  intros r. subst r.
  destruct (detect_counterfeit_try w db product vd provided) as [e|r] eqn:E.
  - rewrite (detect_counterfeit_caught _ _ _ _ _ _ E). split; reflexivity.
  - rewrite (detect_counterfeit_returned _ _ _ _ _ _ E).
    destruct (detect_counterfeit_try_inr _ _ _ _ _ _ E)
      as (qr & dup & pat & man & _ & _ & _ & _ & _ & _ & _ & Hc & Hl).
    split; assumption.
Qed.

(** X1.  Whatever the call, the risk level is "high" exactly when the
    confidence is below 0.3, "medium" from 0.3 to below 0.7 and "low" from
    0.7 on; a negative verdict is always at level "high", so a level of
    "low" or "medium" is only ever given to a positive verdict. *)
Theorem risk_level_follows_the_score :
  forall w db product vd provided,
    let r := detect_counterfeit w db product vd provided in
    (risk_level r = "high" <-> confidence_score r < 0.3)
    /\ (risk_level r = "medium" <->
        0.3 <= confidence_score r /\ confidence_score r < 0.7)
    /\ (risk_level r = "low" <-> 0.7 <= confidence_score r)
    /\ (is_authentic r = false -> risk_level r = "high")
    /\ (risk_level r <> "high" -> is_authentic r = true).
Proof.
  intros w db product vd provided r.
  destruct (verdict_is_scored w db product vd provided) as [Hc Hl].
  fold r in Hc, Hl.
  destruct (_calculate_risk_level_spec (risk_factors r) (confidence_score r))
    as (Hh & Hm & Hlow).
  rewrite <- Hl in Hh, Hm, Hlow.
  assert (Hneg : is_authentic r = false -> risk_level r = "high").
  { intros Ha. apply Hh. rewrite Hc, Ha. cbn. lra. }
  split; [exact Hh|]. split; [exact Hm|]. split; [exact Hlow|].
  split; [exact Hneg|].
  intros Hn. destruct (is_authentic r); [reflexivity|].
  exfalso. apply Hn. apply Hneg. reflexivity.
Qed.

Lemma risk_level_follows_the_score_witness :
  let r := detect_counterfeit sample_world (shop [widget] [maker]) widget
             at_the_shop (Some sixty_four_z) in
  is_authentic r = false /\ risk_level r = "high".
Proof.
  intros r.
  assert (H : is_authentic r = false) by (vm_compute; reflexivity).
  split; [exact H|].
  destruct (risk_level_follows_the_score sample_world (shop [widget] [maker])
              widget at_the_shop (Some sixty_four_z)) as (_ & _ & _ & Hneg & _).
  apply Hneg. exact H.
Defined.

(** ** The reasons and the risk factors of a completed run *)

Lemma _validate_qr_code_reasons db product provided v :
  _validate_qr_code db product provided = inr v ->
  (1 <= List.length (reasons v) <= 3)%nat.
Proof.
  unfold _validate_qr_code, run.
  destruct (negb (truthy_str (Product.qr_code_hash product))
            || negb (len (Product.qr_code_hash product) =? 64)%nat).
  - intros H. injection H as <-. cbn. lia.
  - destruct (raises db DuplicateQrCount);
      destruct (truthy_str provided);
      try destruct (negb (eqb_opt_str (Product.qr_code_hash product) provided));
      cbn [raise ret bind]; try discriminate;
      destruct (0 <? _)%nat; intros H; injection H as <-; cbn; lia.
Qed.

Lemma _validate_ipfs_data_reasons w product :
  List.length (reasons (_validate_ipfs_data w product)) = 1%nat.
Proof.
  unfold _validate_ipfs_data.
  destruct (negb (truthy_str (Product.ipfs_hash product))); [reflexivity|].
  destruct (retrieve_product_data w _) as [e|res]; cbn [bind catch]; [reflexivity|].
  destruct (negb (success res)); [reflexivity|].
  destruct (negb (eqb_opt_str (ipfs_product_name res) _)); [reflexivity|].
  destruct (negb (eqb_opt_str (ipfs_batch_number res) _)); reflexivity.
Qed.

Lemma _validate_blockchain_data_reasons product :
  List.length (reasons (_validate_blockchain_data product)) = 1%nat.
Proof.
  unfold _validate_blockchain_data.
  destruct (negb (truthy_int (Product.blockchain_id product))); reflexivity.
Qed.

Lemma _check_duplicates_reasons db product v :
  _check_duplicates db product = inr v ->
  List.length (duplicate_reasons v) = 1%nat.
Proof.
  unfold _check_duplicates, run.
  destruct (raises db DuplicateBatchAll); cbn [raise ret bind]; [discriminate|].
  destruct (filter _ _); intros H; injection H as <-; reflexivity.
Qed.

Lemma _analyze_verification_patterns_reasons w db product v :
  _analyze_verification_patterns w db product = inr v ->
  (1 <= List.length (pattern_reasons v) <= 2)%nat.
Proof.
  unfold _analyze_verification_patterns, run.
  destruct (raises db RecentVerificationsAll); cbn [raise ret bind]; [discriminate|].
  repeat match goal with
         | |- context [if ?c then _ else _] => destruct c
         end; intros H; injection H as <-; cbn; lia.
Qed.

Lemma _validate_manufacturer_reasons db product v :
  _validate_manufacturer db product = inr v ->
  List.length (reasons v) = 1%nat.
Proof.
  unfold _validate_manufacturer, run.
  destruct (raises db ManufacturerFirst); cbn [raise ret bind]; [discriminate|].
  destruct (find _ _) as [m|];
    [destruct (negb (User.is_active m)), (negb (User.is_verified m))|];
    intros H; injection H as <-; reflexivity.
Qed.

Lemma _check_data_consistency_reasons w product vd :
  (1 <= List.length (consistency_reasons (_check_data_consistency w product vd)) <= 2)%nat.
Proof.
  unfold _check_data_consistency.
  destruct (negb (truthy_str (Product.product_name product))
            || negb (truthy_str (Product.batch_number product)));
    (destruct (Product.manufacturing_date product) as [d|];
     [destruct (utcnow w AtFutureCheck <? d)%Z;
      [|destruct (d <? utcnow w AtAgeCheck - timedelta_days (365 * 10))%Z]|]);
    cbn; lia.
Qed.

(** X2.  A run that ends without an exception reports the reasons of the
    seven checks in the order QR, IPFS, blockchain, duplicates, patterns,
    manufacturer, consistency, and between 7 and 11 reasons in all. *)
Theorem completed_run_reasons :
  forall w db product vd provided r,
    detect_counterfeit_try w db product vd provided = inr r ->
    exists qr dup pat man,
      _validate_qr_code db product provided = inr qr
      /\ _check_duplicates db product = inr dup
      /\ _analyze_verification_patterns w db product = inr pat
      /\ _validate_manufacturer db product = inr man
      /\ detection_reasons r
         = reasons qr ++ reasons (_validate_ipfs_data w product)
           ++ reasons (_validate_blockchain_data product)
           ++ duplicate_reasons dup ++ pattern_reasons pat ++ reasons man
           ++ consistency_reasons (_check_data_consistency w product vd)
      /\ (7 <= List.length (detection_reasons r) <= 11)%nat.
Proof.
  intros w db product vd provided r E.
  destruct (detect_counterfeit_try_inr _ _ _ _ _ _ E)
    as (qr & dup & pat & man & Hqr & Hdup & Hpat & Hman & _ & Hd & _).
  exists qr, dup, pat, man. repeat (split; [assumption|]).
  rewrite Hd, !length_app.
  pose proof (_validate_qr_code_reasons _ _ _ _ Hqr).
  pose proof (_validate_ipfs_data_reasons w product).
  pose proof (_validate_blockchain_data_reasons product).
  pose proof (_check_duplicates_reasons _ _ _ Hdup).
  pose proof (_analyze_verification_patterns_reasons _ _ _ _ Hpat).
  pose proof (_validate_manufacturer_reasons _ _ _ Hman).
  pose proof (_check_data_consistency_reasons w product vd).
  lia.
Qed.

Lemma completed_run_reasons_witness :
  let r := detect_counterfeit sample_world (shop [widget] [maker]) widget
             at_the_shop (Some sha_a) in
  detect_counterfeit_try sample_world (shop [widget] [maker]) widget
    at_the_shop (Some sha_a) = inr r
  /\ (7 <= List.length (detection_reasons r) <= 11)%nat.
Proof.
  intros r.
  assert (H : detect_counterfeit_try sample_world (shop [widget] [maker]) widget
                at_the_shop (Some sha_a) = inr r) by (vm_compute; reflexivity).
  split; [exact H|].
  destruct (completed_run_reasons _ _ _ _ _ _ H)
    as (qr & dup & pat & man & _ & _ & _ & _ & _ & Hn).
  exact Hn.
Defined.

(** X3.  The risk factors of a verdict are drawn from the seven names of
    the checks, or are the single "detection_error" of the handler, which
    appears exactly when the run raised; "swarm_invalid" never occurs, and
    under a positive verdict only the four factors that do not decide the
    verdict can occur, so the penalties listed for "qr_invalid",
    "swarm_invalid", "duplicate_detected" and "detection_error" are never
    subtracted from a score. *)
Theorem risk_factor_names :
  forall w db product vd provided,
    let r := detect_counterfeit w db product vd provided in
    (forall f, In f (risk_factors r) ->
               In f ["qr_invalid"; "ipfs_invalid"; "blockchain_invalid";
                     "duplicate_detected"; "suspicious_pattern";
                     "manufacturer_invalid"; "data_inconsistent";
                     "detection_error"])
    /\ ~ In "swarm_invalid" (risk_factors r)
    /\ (In "detection_error" (risk_factors r) <->
        exists e, detect_counterfeit_try w db product vd provided = inl e)
    /\ (is_authentic r = true ->
        forall f, In f (risk_factors r) ->
                  In f ["blockchain_invalid"; "suspicious_pattern";
                        "manufacturer_invalid"; "data_inconsistent"]).
Proof.
  intros w db product vd provided r. subst r.
  destruct (detect_counterfeit_try w db product vd provided) as [e|r] eqn:E.
  - rewrite (detect_counterfeit_caught _ _ _ _ _ _ E).
    cbn [detection_error risk_factors is_authentic].
    split; [intros f [<-|[]]; cbn; tauto|].
    split; [intros [H|[]]; discriminate H|].
    split; [split; [intros _; exists e; reflexivity|intros _; left; reflexivity]|].
    discriminate.
  - rewrite (detect_counterfeit_returned _ _ _ _ _ _ E).
    destruct (detect_counterfeit_try_inr _ _ _ _ _ _ E)
      as (qr & dup & pat & man & _ & _ & _ & _ & Ha & _ & Hf & _).
    rewrite Hf.
    split; [|split; [|split]].
    + intros f Hin. apply in_factors_of in Hin. cbn [In].
      destruct Hin as [[_ ->]|[[_ ->]|[[_ ->]|[[_ ->]|[[_ ->]|[[_ ->]|[_ ->]]]]]]];
        tauto.
    + intros Hin. apply in_factors_of in Hin.
      destruct Hin as [[_ H]|[[_ H]|[[_ H]|[[_ H]|[[_ H]|[[_ H]|[_ H]]]]]]];
        discriminate H.
    + split.
      * intros Hin. apply in_factors_of in Hin.
        destruct Hin as [[_ H]|[[_ H]|[[_ H]|[[_ H]|[[_ H]|[[_ H]|[_ H]]]]]]];
          discriminate H.
      * intros [e' He']. discriminate He'.
    + intros Hauth f Hin. rewrite Ha in Hauth.
      apply andb_true_iff in Hauth. destruct Hauth as [Hauth Hd].
      apply andb_true_iff in Hauth. destruct Hauth as [Hq Hi].
      apply negb_true_iff in Hd.
      apply in_factors_of in Hin. cbn [In].
      destruct Hin as [[H _]|[[H _]|[[_ ->]|[[H _]|[[_ ->]|[[_ ->]|[_ ->]]]]]]];
        try congruence; tauto.
Qed.

Lemma risk_factor_names_witness :
  let r := detect_counterfeit sample_world (shop [unregistered] [unverified_maker])
             unregistered at_the_shop (Some sha_a) in
  is_authentic r = true
  /\ forall f, In f (risk_factors r) ->
               In f ["blockchain_invalid"; "suspicious_pattern";
                     "manufacturer_invalid"; "data_inconsistent"].
Proof.
  intros r.
  assert (H : is_authentic r = true) by (vm_compute; reflexivity).
  split; [exact H|].
  destruct (risk_factor_names sample_world (shop [unregistered] [unverified_maker])
              unregistered at_the_shop (Some sha_a)) as (_ & _ & _ & Hpos).
  apply Hpos. exact H.
Defined.

Lemma detect_counterfeit_try_summary w db product vd provided r :
  detect_counterfeit_try w db product vd provided = inr r ->
  exists qr dup pat man,
    _validate_qr_code db product provided = inr qr
    /\ _check_duplicates db product = inr dup
    /\ _analyze_verification_patterns w db product = inr pat
    /\ _validate_manufacturer db product = inr man
    /\ validation_summary r
       = [ ("qr_valid", is_valid qr);
           ("blockchain_valid", is_valid (_validate_blockchain_data product));
           ("no_duplicates", negb (has_duplicates dup));
           ("normal_pattern", negb (suspicious_pattern pat));
           ("manufacturer_valid", is_valid man);
           ("data_consistent",
            is_consistent (_check_data_consistency w product vd)) ].
Proof.
  unfold detect_counterfeit_try.
  destruct (_validate_qr_code db product provided) as [e|qr];
    [intros H; discriminate H|].
  cbv beta iota delta [bind].
  destruct (is_valid qr) eqn:Eqr,
    (is_valid (_validate_ipfs_data w product)) eqn:Eip;
    cbv beta iota delta [negb];
    (destruct (_check_duplicates db product) as [e|dup];
       [intros H; discriminate H|]);
    destruct (has_duplicates dup) eqn:Edup;
    (destruct (_analyze_verification_patterns w db product) as [e|pat];
       [intros H; discriminate H|]);
    (destruct (_validate_manufacturer db product) as [e|man];
       [intros H; discriminate H|]);
    unfold ret; intros H; injection H as <-;
    exists qr, dup, pat, man;
    rewrite ?Eqr, ?Edup; cbn [validation_summary negb];
    repeat split; reflexivity.
Qed.

Lemma summary_entries (b1 b2 b3 b4 b5 b6 : bool) :
  let summary := [ ("qr_valid", b1); ("blockchain_valid", b2); ("no_duplicates", b3);
                   ("normal_pattern", b4); ("manufacturer_valid", b5);
                   ("data_consistent", b6) ] in
  (In ("qr_valid", false) summary <-> b1 = false)
  /\ (In ("blockchain_valid", false) summary <-> b2 = false)
  /\ (In ("no_duplicates", false) summary <-> b3 = false)
  /\ (In ("normal_pattern", false) summary <-> b4 = false)
  /\ (In ("manufacturer_valid", false) summary <-> b5 = false)
  /\ (In ("data_consistent", false) summary <-> b6 = false).
Proof.
  cbn [In]. repeat split; intros H;
    repeat match goal with
           | H : _ \/ _ |- _ => destruct H as [H|H]
           end;
    try contradiction; try congruence; subst; tauto.
Qed.

Lemma factor_present qr ipfs bc dup pat man con :
  let factors := factors_of qr ipfs bc dup pat man con in
  (In "qr_invalid" factors <-> is_valid qr = false)
  /\ (In "blockchain_invalid" factors <-> is_valid bc = false)
  /\ (In "duplicate_detected" factors <-> has_duplicates dup = true)
  /\ (In "suspicious_pattern" factors <-> suspicious_pattern pat = true)
  /\ (In "manufacturer_invalid" factors <-> is_valid man = false)
  /\ (In "data_inconsistent" factors <-> is_consistent con = false).
Proof.
  cbv zeta. rewrite !in_factors_of.
  repeat split; intros H;
    repeat match goal with
           | H : _ \/ _ |- _ => destruct H as [H|H]
           | H : _ /\ _ |- _ => destruct H as [? H]
           end;
    try discriminate H; try assumption; tauto.
Qed.

(** X4.  The [validation_summary] of a completed run has six entries, for
    every check but the IPFS one, and an entry is false exactly when the
    risk factor of its check is present; an IPFS failure therefore makes
    the verdict negative without any entry of the summary showing it. *)
Theorem validation_summary_mirrors_risk_factors :
  forall w db product vd provided r,
    detect_counterfeit_try w db product vd provided = inr r ->
    map fst (validation_summary r)
    = ["qr_valid"; "blockchain_valid"; "no_duplicates"; "normal_pattern";
       "manufacturer_valid"; "data_consistent"]
    /\ (In ("qr_valid", false) (validation_summary r) <->
        In "qr_invalid" (risk_factors r))
    /\ (In ("blockchain_valid", false) (validation_summary r) <->
        In "blockchain_invalid" (risk_factors r))
    /\ (In ("no_duplicates", false) (validation_summary r) <->
        In "duplicate_detected" (risk_factors r))
    /\ (In ("normal_pattern", false) (validation_summary r) <->
        In "suspicious_pattern" (risk_factors r))
    /\ (In ("manufacturer_valid", false) (validation_summary r) <->
        In "manufacturer_invalid" (risk_factors r))
    /\ (In ("data_consistent", false) (validation_summary r) <->
        In "data_inconsistent" (risk_factors r))
    /\ ((forall key, ~ In (key, false) (validation_summary r)) ->
        (is_authentic r = false <->
         is_valid (_validate_ipfs_data w product) = false)).
Proof.
  intros w db product vd provided r E.
  destruct (detect_counterfeit_try_inr _ _ _ _ _ _ E)
    as (qr & dup & pat & man & Hqr & Hdup & Hpat & Hman & Ha & _ & Hf & _).
  destruct (detect_counterfeit_try_summary _ _ _ _ _ _ E)
    as (qr' & dup' & pat' & man' & Hqr' & Hdup' & Hpat' & Hman' & Hs).
  rewrite Hqr in Hqr'. injection Hqr' as <-.
  rewrite Hdup in Hdup'. injection Hdup' as <-.
  rewrite Hpat in Hpat'. injection Hpat' as <-.
  rewrite Hman in Hman'. injection Hman' as <-.
  rewrite Hs, Hf. cbn [map fst].
  split; [reflexivity|].
  destruct (summary_entries
              (is_valid qr) (is_valid (_validate_blockchain_data product))
              (negb (has_duplicates dup)) (negb (suspicious_pattern pat))
              (is_valid man)
              (is_consistent (_check_data_consistency w product vd)))
    as (S1 & S2 & S3 & S4 & S5 & S6).
  destruct (factor_present qr (_validate_ipfs_data w product)
              (_validate_blockchain_data product) dup pat man
              (_check_data_consistency w product vd))
    as (F1 & F2 & F3 & F4 & F5 & F6).
  rewrite negb_false_iff in S3, S4.
  split; [rewrite S1, F1; reflexivity|].
  split; [rewrite S2, F2; reflexivity|].
  split; [rewrite S3, F3; reflexivity|].
  split; [rewrite S4, F4; reflexivity|].
  split; [rewrite S5, F5; reflexivity|].
  split; [rewrite S6, F6; reflexivity|].
  intros Hnone. rewrite Ha.
  assert (Hq : is_valid qr = true).
  { destruct (is_valid qr) eqn:Eq; [reflexivity|].
    exfalso. apply (Hnone "qr_valid"). apply S1. reflexivity. }
  assert (Hd : has_duplicates dup = false).
  { destruct (has_duplicates dup) eqn:Ed; [|reflexivity].
    exfalso. apply (Hnone "no_duplicates"). apply S3. reflexivity. }
  rewrite Hq, Hd. cbn [negb andb]. rewrite andb_true_r. reflexivity.
Qed.

Lemma validation_summary_mirrors_risk_factors_witness :
  let r := detect_counterfeit sample_world (shop [pinned] [maker]) pinned
             at_the_shop (Some sha_a) in
  detect_counterfeit_try sample_world (shop [pinned] [maker]) pinned
    at_the_shop (Some sha_a) = inr r
  /\ (forall key, ~ In (key, false) (validation_summary r))
  /\ is_authentic r = false.
Proof.
  intros r.
  assert (H : detect_counterfeit_try sample_world (shop [pinned] [maker]) pinned
                at_the_shop (Some sha_a) = inr r) by (vm_compute; reflexivity).
  assert (Hnone : forall key, ~ In (key, false) (validation_summary r)).
  { intros key Hin. vm_compute in Hin.
    repeat (destruct Hin as [Hin|Hin]; [discriminate Hin|]). exact Hin. }
  split; [exact H|]. split; [exact Hnone|].
  destruct (validation_summary_mirrors_risk_factors _ _ _ _ _ _ H)
    as (_ & _ & _ & _ & _ & _ & _ & Hipfs).
  apply (Hipfs Hnone). reflexivity.
Defined.

(** ** The scorer *)

Lemma sumQ_snoc (l : list Q) (x : Q) : sumQ (l ++ [x]) = sumQ l + x.
Proof. unfold sumQ. rewrite fold_left_app. reflexivity. Qed.

Lemma warning_penalty_nonneg (n : nat) : 0 <= inject_Z (Z.of_nat n) * 0.05.
Proof.
  apply Qmult_le_0_compat; [|lra].
  change 0 with (inject_Z 0). rewrite <- Zle_Qle. lia.
Qed.

(** X5.  The scorer never returns more than 0.9, and neither a further
    risk factor, whatever its name, nor a further reason ever raises the
    score; so the confidence of every verdict is at most 0.9. *)
Theorem score_only_goes_down :
  (forall authentic factors all_reasons factor reason,
      _calculate_confidence_score authentic factors all_reasons <= 0.9
      /\ _calculate_confidence_score authentic (factors ++ [factor]) all_reasons
         <= _calculate_confidence_score authentic factors all_reasons
      /\ _calculate_confidence_score authentic factors (all_reasons ++ [reason])
         <= _calculate_confidence_score authentic factors all_reasons)
  /\ (forall w db product vd provided,
         confidence_score (detect_counterfeit w db product vd provided) <= 0.9).
Proof.
  assert (Hscorer :
    forall authentic factors all_reasons factor reason,
      _calculate_confidence_score authentic factors all_reasons <= 0.9
      /\ _calculate_confidence_score authentic (factors ++ [factor]) all_reasons
         <= _calculate_confidence_score authentic factors all_reasons
      /\ _calculate_confidence_score authentic factors (all_reasons ++ [reason])
         <= _calculate_confidence_score authentic factors all_reasons).
  { intros [|] factors all_reasons factor reason;
      [|cbn [_calculate_confidence_score negb]; repeat split; lra].
    pose proof (_calculate_confidence_score_authentic factors all_reasons) as S0.
    pose proof (_calculate_confidence_score_authentic (factors ++ [factor])
                  all_reasons) as S1.
    pose proof (_calculate_confidence_score_authentic factors
                  (all_reasons ++ [reason])) as S2.
    rewrite map_app in S1. cbn [map] in S1. rewrite sumQ_snoc in S1.
    rewrite filter_app, length_app, Nat2Z.inj_add, inject_Z_plus in S2.
    pose proof (total_penalty_nonneg factors) as HT.
    pose proof (get_penalties_nonneg factor) as Hf.
    pose proof (warning_penalty_nonneg (List.length (filter is_warning all_reasons)))
      as HW.
    pose proof (warning_penalty_nonneg (List.length (filter is_warning [reason])))
      as Hr.
    revert S0 S1 S2 HT Hf HW Hr.
    generalize (_calculate_confidence_score true factors all_reasons).
    generalize (_calculate_confidence_score true (factors ++ [factor]) all_reasons).
    generalize (_calculate_confidence_score true factors (all_reasons ++ [reason])).
    generalize (sumQ (map (fun factor0 => get penalties factor0 0.1) factors)).
    generalize (get penalties factor 0.1).
    generalize (inject_Z (Z.of_nat (List.length (filter is_warning all_reasons)))).
    generalize (inject_Z (Z.of_nat (List.length (filter is_warning [reason])))).
    intros R W F T c2 c1 c0. unfold py_max.
    repeat match goal with
           | |- context [Qlt_le_dec ?a ?b] => destruct (Qlt_le_dec a b)
           end; intros S0 S1 S2 HT Hf HW Hr; repeat split; lra. }
  split; [exact Hscorer|].
  intros w db product vd provided.
  destruct (verdict_is_scored w db product vd provided) as [Hc _].
  rewrite Hc. exact (proj1 (Hscorer _ _ _ "" "")).
Qed.

(** ** The pattern analysis *)

Lemma rate_above_half (c t : nat) :
  (0 < t)%nat ->
  Qltb 0.5 (inject_Z (Z.of_nat c) / inject_Z (Z.of_nat t)) = (t <? 2 * c)%nat.
Proof.
  intros Ht.
  assert (Hpos : 0 < inject_Z (Z.of_nat t)).
  { change 0 with (inject_Z 0). rewrite <- Zlt_Qlt. lia. }
  destruct (t <? 2 * c)%nat eqn:E.
  - apply Nat.ltb_lt in E. apply Qltb_lt.
    apply Qlt_shift_div_l; [exact Hpos|].
    assert (H : inject_Z (Z.of_nat t) < inject_Z 2 * inject_Z (Z.of_nat c)).
    { rewrite <- inject_Z_mult, <- Zlt_Qlt. lia. }
    change (inject_Z 2) with 2%Q in H. lra.
  - apply Nat.ltb_ge in E. apply Qltb_ge.
    apply Qle_shift_div_r; [exact Hpos|].
    assert (H : inject_Z 2 * inject_Z (Z.of_nat c) <= inject_Z (Z.of_nat t)).
    { rewrite <- inject_Z_mult, <- Zle_Qle. lia. }
    change (inject_Z 2) with 2%Q in H. lra.
Qed.

(** X6.  The pattern analysis flags a product exactly when more than 20
    verifications of it fall in the last 30 days, or more than half of
    those in the window were negative; a run marks the verdict with
    "suspicious_pattern" in exactly these cases. *)
Theorem pattern_is_suspicious_iff :
  forall w db product,
    raises db RecentVerificationsAll = None ->
    let recent := filter (recent_for w product) (verifications db) in
    let total := List.length recent in
    let counterfeit :=
      List.length (filter (fun v => negb (Verification.is_authentic v)) recent) in
    exists v,
      _analyze_verification_patterns w db product = inr v
      /\ (suspicious_pattern v = true <->
          (20 < total \/ total < 2 * counterfeit)%nat)
      /\ (forall vd provided r,
             detect_counterfeit_try w db product vd provided = inr r ->
             (In "suspicious_pattern" (risk_factors r) <->
              (20 < total \/ total < 2 * counterfeit)%nat)).
Proof.
  intros w db product Hq recent total counterfeit.
  assert (Hv : exists v,
             _analyze_verification_patterns w db product = inr v
             /\ (suspicious_pattern v = true <->
                 (20 < total \/ total < 2 * counterfeit)%nat)).
  { assert (Hle : (counterfeit <= total)%nat) by apply filter_length_le.
    unfold _analyze_verification_patterns.
    rewrite (run_ok _ _ _ Hq). cbn [bind].
    fold recent. fold total. fold counterfeit.
    destruct (20 <? total)%nat eqn:E20;
      [apply Nat.ltb_lt in E20|apply Nat.ltb_ge in E20];
      try (destruct (10 <? total)%nat);
      (destruct (0 <? total)%nat eqn:E0;
       [ apply Nat.ltb_lt in E0; rewrite (rate_above_half counterfeit total E0);
         (destruct (total <? 2 * counterfeit)%nat eqn:Eh;
          [apply Nat.ltb_lt in Eh|apply Nat.ltb_ge in Eh]);
         try destruct (Qltb 0.2 _)
       | apply Nat.ltb_ge in E0 ]);
      (eexists; split; [reflexivity|]); cbn [suspicious_pattern];
      split; intros H; try reflexivity; try discriminate H; try lia;
      exfalso; lia. }
  destruct Hv as (v & Hv & Hiff).
  exists v. split; [exact Hv|]. split; [exact Hiff|].
  intros vd provided r E.
  destruct (detect_counterfeit_try_inr _ _ _ _ _ _ E)
    as (qr & dup & pat & man & _ & _ & Hpat & _ & _ & _ & Hf & _).
  rewrite Hv in Hpat. injection Hpat as <-.
  rewrite Hf, <- Hiff.
  destruct (factor_present qr (_validate_ipfs_data w product)
              (_validate_blockchain_data product) dup v man
              (_check_data_consistency w product vd)) as (_ & _ & _ & F4 & _).
  exact F4.
Qed.

Lemma pattern_is_suspicious_iff_witness :
  exists v,
    _analyze_verification_patterns sample_world busy_shop widget = inr v
    /\ suspicious_pattern v = true.
Proof.
  destruct (pattern_is_suspicious_iff sample_world busy_shop widget eq_refl)
    as (v & Hv & Hiff & _).
  exists v. split; [exact Hv|].
  apply Hiff. left. apply Nat.ltb_lt. vm_compute. reflexivity.
Defined.

(** ** Negative verdicts *)

(** A negative verdict always has score 0.0 and risk level "high". *)
Lemma negative_verdict w db product vd provided :
  let r := detect_counterfeit w db product vd provided in
  is_authentic r = false ->
  confidence_score r = 0.0 /\ risk_level r = "high".
Proof.
  intros r Ha.
  destruct (verdict_is_scored w db product vd provided) as [Hc Hl].
  fold r in Hc, Hl.
  assert (Hs : confidence_score r = 0.0) by (rewrite Hc, Ha; reflexivity).
  split; [exact Hs|]. rewrite Hl, Hs. reflexivity.
Qed.

(** The verdict is negative as soon as one of the three deciding checks,
    had it been reached, came out against the product. *)
Lemma gate_failure_is_negative w db product vd provided :
  (forall qr, _validate_qr_code db product provided = inr qr ->
              forall dup, _check_duplicates db product = inr dup ->
                          is_valid qr && is_valid (_validate_ipfs_data w product)
                          && negb (has_duplicates dup) = false) ->
  is_authentic (detect_counterfeit w db product vd provided) = false.
Proof.
  intros H.
  destruct (detect_counterfeit_try w db product vd provided) as [e|r] eqn:E.
  - rewrite (detect_counterfeit_caught _ _ _ _ _ _ E). reflexivity.
  - rewrite (detect_counterfeit_returned _ _ _ _ _ _ E).
    destruct (detect_counterfeit_try_inr _ _ _ _ _ _ E)
      as (qr & dup & pat & man & Hqr & Hdup & _ & _ & Ha & _).
    rewrite Ha. exact (H qr Hqr dup Hdup).
Qed.

Lemma same_batch_other_id_spec (product o : Product.t) :
  same_batch_other_id product o = true <->
  Product.batch_number o = Product.batch_number product
  /\ Product.manufacturer_id o = Product.manufacturer_id product
  /\ Product.id o <> Product.id product
  /\ Product.is_active o = true.
Proof.
  unfold same_batch_other_id.
  rewrite !andb_true_iff, negb_true_iff, eqb_opt_str_eq, Z.eqb_eq, Z.eqb_neq.
  tauto.
Qed.

(** X7.  The duplicate check finds a duplicate exactly when another active
    product of the same manufacturer carries the batch number; inactive
    products and products of other manufacturers are not counted.  When
    there is one the verdict of every call is negative, with score 0.0 and
    risk level "high", and a run that no database failure interrupts
    reports how many there are. *)
Theorem active_batch_duplicate_is_counterfeit :
  forall w db product vd provided,
    let r := detect_counterfeit w db product vd provided in
    let others := filter (same_batch_other_id product) (products db) in
    (forall o, In o others <->
               In o (products db)
               /\ Product.batch_number o = Product.batch_number product
               /\ Product.manufacturer_id o = Product.manufacturer_id product
               /\ Product.id o <> Product.id product
               /\ Product.is_active o = true)
    /\ (forall dup, _check_duplicates db product = inr dup ->
                    (has_duplicates dup = true <-> others <> []))
    /\ (others <> [] ->
        is_authentic r = false
        /\ confidence_score r = 0.0
        /\ risk_level r = "high"
        /\ ((forall q, raises db q = None) ->
            In ("Found " +++ str_of_nat (List.length others)
                +++ " products with same batch number from same manufacturer")
               (detection_reasons r)
            /\ In "duplicate_detected" (risk_factors r))).
Proof.
  intros w db product vd provided r others.
  assert (Hdup : forall dup,
             _check_duplicates db product = inr dup ->
             (has_duplicates dup = true <-> others <> [])
             /\ (others <> [] ->
                 duplicate_reasons dup
                 = ["Found " +++ str_of_nat (List.length others)
                    +++ " products with same batch number from same manufacturer"])).
  { intros dup. unfold _check_duplicates, run.
    destruct (raises db DuplicateBatchAll); cbn [raise ret bind]; [discriminate|].
    fold others. destruct others as [|o l]; intros H; injection H as <-;
      cbn [has_duplicates duplicate_reasons]; split;
      try (split; [discriminate|intros H; exfalso; apply H; reflexivity]);
      try (split; [intros _; discriminate|reflexivity]);
      try (intros H; exfalso; apply H; reflexivity); reflexivity. }
  split; [|split].
  - intros o. unfold others. rewrite filter_In, same_batch_other_id_spec. reflexivity.
  - intros dup H. exact (proj1 (Hdup dup H)).
  - intros Hne.
    assert (Ha : is_authentic r = false).
    { apply gate_failure_is_negative. intros qr _ dup Hd.
      destruct (Hdup dup Hd) as [Hiff _].
      rewrite (proj2 Hiff Hne). cbn [negb]. apply andb_false_r. }
    destruct (negative_verdict w db product vd provided Ha) as [Hs Hl].
    split; [exact Ha|]. split; [exact Hs|]. split; [exact Hl|].
    intros Hq.
    destruct (detect_counterfeit_try_total w db product vd provided Hq) as [r' E].
    assert (Hr : r = r') by (apply detect_counterfeit_returned; exact E).
    rewrite Hr.
    destruct (detect_counterfeit_try_inr _ _ _ _ _ _ E)
      as (qr & dup & pat & man & _ & Hd & _ & _ & _ & Hreasons & Hf & _).
    destruct (Hdup dup Hd) as [Hiff Hmsg].
    split.
    + rewrite Hreasons, (Hmsg Hne), !in_app_iff.
      right. right. right. left. left. reflexivity.
    + rewrite Hf.
      destruct (factor_present qr (_validate_ipfs_data w product)
                  (_validate_blockchain_data product) dup pat man
                  (_check_data_consistency w product vd)) as (_ & _ & F3 & _).
      apply F3. apply Hiff. exact Hne.
Qed.

Lemma active_batch_duplicate_is_counterfeit_witness :
  let r := detect_counterfeit sample_world (shop [widget; reissue] [maker]) widget
             at_the_shop (Some sha_a) in
  is_authentic r = false
  /\ In "Found 1 products with same batch number from same manufacturer"
        (detection_reasons r).
Proof.
  intros r.
  destruct (active_batch_duplicate_is_counterfeit sample_world
              (shop [widget; reissue] [maker]) widget at_the_shop (Some sha_a))
    as (_ & _ & Hneg).
  destruct Hneg as (Ha & _ & _ & Hrun); [vm_compute; discriminate|].
  split; [exact Ha|].
  exact (proj1 (Hrun (fun q => eq_refl))).
Defined.

Lemma _validate_qr_code_mismatch db product provided qr :
  truthy_str provided = true ->
  eqb_opt_str (Product.qr_code_hash product) provided = false ->
  _validate_qr_code db product provided = inr qr ->
  is_valid qr = false
  /\ (truthy_str (Product.qr_code_hash product) = true ->
      len (Product.qr_code_hash product) = 64%nat ->
      In "QR code hash mismatch - possible counterfeit" (reasons qr)).
Proof.
  intros Ht Hne. unfold _validate_qr_code, run. rewrite Ht, Hne.
  destruct (truthy_str (Product.qr_code_hash product)) eqn:Es;
    [destruct (len (Product.qr_code_hash product) =? 64)%nat eqn:El|];
    cbn [negb orb].
  - destruct (raises db DuplicateQrCount); cbn [raise ret bind]; [discriminate|].
    destruct (0 <? _)%nat; intros H; injection H as <-;
      (split; [reflexivity|]); intros _ _; cbn; tauto.
  - intros H. injection H as <-. split; [reflexivity|].
    intros _ Hl. apply Nat.eqb_neq in El. contradiction.
  - intros H. injection H as <-. split; [reflexivity|].
    intros Hs. discriminate Hs.
Qed.

(** X8.  A provided hash that is not empty and differs from the stored one
    makes the verdict of every call negative, with score 0.0 and risk
    level "high"; a completed run on a stored hash of 64 characters says
    so in its reasons and risk factors.  An empty provided hash is not
    compared at all: the verdict is the one of a call without a hash. *)
Theorem mismatched_hash_is_counterfeit :
  forall w db product vd provided,
    (truthy_str provided = true ->
     eqb_opt_str (Product.qr_code_hash product) provided = false ->
     let r := detect_counterfeit w db product vd provided in
     is_authentic r = false
     /\ confidence_score r = 0.0
     /\ risk_level r = "high"
     /\ ((forall q, raises db q = None) ->
         truthy_str (Product.qr_code_hash product) = true ->
         len (Product.qr_code_hash product) = 64%nat ->
         In "QR code hash mismatch - possible counterfeit" (detection_reasons r)
         /\ In "qr_invalid" (risk_factors r)))
    /\ detect_counterfeit w db product vd (Some "")
       = detect_counterfeit w db product vd None.
Proof.
  intros w db product vd provided. split.
  - intros Ht Hne r.
    assert (Ha : is_authentic r = false).
    { apply gate_failure_is_negative. intros qr Hqr dup _.
      destruct (_validate_qr_code_mismatch _ _ _ _ Ht Hne Hqr) as [-> _].
      reflexivity. }
    destruct (negative_verdict w db product vd provided Ha) as [Hs Hl].
    split; [exact Ha|]. split; [exact Hs|]. split; [exact Hl|].
    intros Hq Htruthy Hlen.
    destruct (detect_counterfeit_try_total w db product vd provided Hq) as [r' E].
    assert (Hr : r = r') by (apply detect_counterfeit_returned; exact E).
    rewrite Hr.
    destruct (detect_counterfeit_try_inr _ _ _ _ _ _ E)
      as (qr & dup & pat & man & Hqr & _ & _ & _ & _ & Hreasons & Hf & _).
    destruct (_validate_qr_code_mismatch _ _ _ _ Ht Hne Hqr) as [Hinv Hin].
    split.
    + rewrite Hreasons, in_app_iff. left. exact (Hin Htruthy Hlen).
    + rewrite Hf.
      destruct (factor_present qr (_validate_ipfs_data w product)
                  (_validate_blockchain_data product) dup pat man
                  (_check_data_consistency w product vd)) as (F1 & _).
      apply F1. exact Hinv.
  - assert (H : _validate_qr_code db product (Some "")
                = _validate_qr_code db product None) by reflexivity.
    unfold detect_counterfeit, detect_counterfeit_try. rewrite H. reflexivity.
Qed.

Lemma mismatched_hash_is_counterfeit_witness :
  let r := detect_counterfeit sample_world (shop [widget] [maker]) widget
             at_the_shop (Some sha_b) in
  is_authentic r = false
  /\ confidence_score r = 0.0
  /\ risk_level r = "high"
  /\ In "QR code hash mismatch - possible counterfeit" (detection_reasons r).
Proof.
  intros r.
  destruct (mismatched_hash_is_counterfeit sample_world (shop [widget] [maker])
              widget at_the_shop (Some sha_b)) as [Hneg _].
  destruct (Hneg eq_refl eq_refl) as (Ha & Hs & Hl & Hrun).
  split; [exact Ha|]. split; [exact Hs|]. split; [exact Hl|].
  exact (proj1 (Hrun (fun q => eq_refl) eq_refl eq_refl)).
Defined.

(** ** The content stores *)

(** X9.  The IPFS validation passes in two cases only: the product has no
    IPFS hash, or the retrieval succeeds and returns the name and the
    batch number of the product.  A retrieval that raises, reports a
    failure or returns other data makes the validation invalid, and with
    it the verdict of every call negative, with score 0.0 and risk level
    "high". *)
Theorem ipfs_validation_passes_iff :
  forall w product,
    (is_valid (_validate_ipfs_data w product) = true <->
     truthy_str (Product.ipfs_hash product) = false
     \/ exists res,
          retrieve_product_data w (the (Product.ipfs_hash product)) = inr res
          /\ success res = true
          /\ ipfs_product_name res = Product.product_name product
          /\ ipfs_batch_number res = Product.batch_number product)
    /\ (forall db vd provided,
           is_valid (_validate_ipfs_data w product) = false ->
           let r := detect_counterfeit w db product vd provided in
           is_authentic r = false
           /\ confidence_score r = 0.0
           /\ risk_level r = "high").
Proof.
  intros w product. split.
  - unfold _validate_ipfs_data.
    destruct (truthy_str (Product.ipfs_hash product)); cbn [negb];
      [|split; [intros _; left; reflexivity|reflexivity]].
    destruct (retrieve_product_data w _) as [e|res]; cbn [bind catch].
    + split; [discriminate|].
      intros [H|(res & H & _)]; discriminate H.
    + destruct (success res) eqn:Es; cbn [negb];
        [|split; [discriminate|];
          intros [H|(res' & H & Hs & _)]; [discriminate H|];
          injection H as <-; congruence].
      destruct (eqb_opt_str (ipfs_product_name res) (Product.product_name product))
        eqn:En; cbn [negb];
        [|split; [discriminate|];
          intros [H|(res' & H & _ & Hn & _)]; [discriminate H|];
          injection H as <-; apply eqb_opt_str_eq in Hn; congruence].
      destruct (eqb_opt_str (ipfs_batch_number res) (Product.batch_number product))
        eqn:Eb; cbn [negb];
        [|split; [discriminate|];
          intros [H|(res' & H & _ & _ & Hb)]; [discriminate H|];
          injection H as <-; apply eqb_opt_str_eq in Hb; congruence].
      split; [|reflexivity].
      intros _. right. exists res.
      apply eqb_opt_str_eq in En, Eb. repeat split; assumption.
  - intros db vd provided Hinv r.
    assert (Ha : is_authentic r = false).
    { apply gate_failure_is_negative. intros qr _ dup _.
      rewrite Hinv. rewrite andb_false_r. reflexivity. }
    destruct (negative_verdict w db product vd provided Ha) as [Hs Hl].
    repeat split; assumption.
Qed.

Lemma ipfs_validation_passes_iff_witness :
  let r := detect_counterfeit sample_world (shop [pinned] [maker]) pinned
             at_the_shop (Some sha_a) in
  is_valid (_validate_ipfs_data sample_world pinned) = false
  /\ is_authentic r = false.
Proof.
  intros r.
  assert (H : is_valid (_validate_ipfs_data sample_world pinned) = false)
    by reflexivity.
  split; [exact H|].
  destruct (ipfs_validation_passes_iff sample_world pinned) as [_ Hneg].
  exact (proj1 (Hneg (shop [pinned] [maker]) at_the_shop (Some sha_a) H)).
Defined.

(** X10.  The legacy Swarm validation passes, like the IPFS one, only
    without a Swarm hash or with retrieved data that match the product;
    but [detect_counterfeit] never consults it: the verdict of a call does
    not depend on the Swarm hash of the product. *)
Theorem swarm_hash_is_never_consulted :
  forall swarm_service w db product vd provided h,
    (is_valid (_validate_swarm_data swarm_service product) = true <->
     truthy_str (Product.swarm_hash product) = false
     \/ exists res,
          swarm_retrieve_product_data swarm_service (the (Product.swarm_hash product))
          = inr res
          /\ success res = true
          /\ ipfs_product_name res = Product.product_name product
          /\ ipfs_batch_number res = Product.batch_number product)
    /\ detect_counterfeit w db (with_swarm_hash h product) vd provided
       = detect_counterfeit w db product vd provided.
Proof.
  intros swarm_service w db product vd provided h. split.
  - unfold _validate_swarm_data.
    destruct (truthy_str (Product.swarm_hash product)); cbn [negb];
      [|split; [intros _; left; reflexivity|reflexivity]].
    destruct (swarm_retrieve_product_data swarm_service _) as [e|res];
      cbn [bind catch].
    + split; [discriminate|].
      intros [H|(res & H & _)]; discriminate H.
    + destruct (success res) eqn:Es; cbn [negb];
        [|split; [discriminate|];
          intros [H|(res' & H & Hs & _)]; [discriminate H|];
          injection H as <-; congruence].
      destruct (eqb_opt_str (ipfs_product_name res) (Product.product_name product))
        eqn:En; cbn [negb];
        [|split; [discriminate|];
          intros [H|(res' & H & _ & Hn & _)]; [discriminate H|];
          injection H as <-; apply eqb_opt_str_eq in Hn; congruence].
      destruct (eqb_opt_str (ipfs_batch_number res) (Product.batch_number product))
        eqn:Eb; cbn [negb];
        [|split; [discriminate|];
          intros [H|(res' & H & _ & _ & Hb)]; [discriminate H|];
          injection H as <-; apply eqb_opt_str_eq in Hb; congruence].
      split; [|reflexivity].
      intros _. right. exists res.
      apply eqb_opt_str_eq in En, Eb. repeat split; assumption.
  - reflexivity.
Qed.

(** ** The endpoints *)

Lemma detect_counterfeit_try_reasons_length w db product vd provided r :
  detect_counterfeit_try w db product vd provided = inr r ->
  (7 <= List.length (detection_reasons r) <= 11)%nat.
Proof.
  intros E.
  destruct (detect_counterfeit_try_inr _ _ _ _ _ _ E)
    as (qr & dup & pat & man & Hqr & Hdup & Hpat & Hman & _ & Hd & _).
  rewrite Hd, !length_app.
  pose proof (_validate_qr_code_reasons _ _ _ _ Hqr).
  pose proof (_validate_ipfs_data_reasons w product).
  pose proof (_validate_blockchain_data_reasons product).
  pose proof (_check_duplicates_reasons _ _ _ Hdup).
  pose proof (_analyze_verification_patterns_reasons _ _ _ _ Hpat).
  pose proof (_validate_manufacturer_reasons _ _ _ Hman).
  pose proof (_check_data_consistency_reasons w product vd).
  lia.
Qed.

Lemma detect_counterfeit_reasons_length w db product vd provided :
  (1 <= List.length (detection_reasons (detect_counterfeit w db product vd provided)))%nat.
Proof.
  destruct (detect_counterfeit_try w db product vd provided) as [e|r] eqn:E.
  - rewrite (detect_counterfeit_caught _ _ _ _ _ _ E). cbn. lia.
  - rewrite (detect_counterfeit_returned _ _ _ _ _ _ E).
    pose proof (detect_counterfeit_try_reasons_length _ _ _ _ _ _ E). lia.
Qed.

(** The ledger block of the analysis appends at most one reason and takes
    none away. *)
Lemma analyze_ledger_reasons bs qr location u product (l : AnalyzeLocals) :
  exists l',
    analyze_ledger bs qr location u product l = (inr tt, l')
    /\ (List.length (detection_reasons (analyzed l))
        <= List.length (detection_reasons (analyzed l')))%nat.
Proof.
  unfold analyze_ledger, try_except, st_bind, lift, modify, st_ret.
  destruct (truthy_str (User.wallet_address u)); cbn [andb];
    [destruct (truthy_int (Product.blockchain_id product))|];
    [destruct (analyze_call bs qr location u product) as [e|res];
     [|destruct (negb (get_bool (bc_success res) false));
       [|destruct (negb (get_bool (bc_verification_result res) true))]]|..];
    (eexists; split; [reflexivity|]);
    cbn [on_analyzed set_analysis set_is_authentic append_reason analyzed
         detection_reasons];
    rewrite ?length_app; cbn [List.length]; lia.
Qed.

Lemma filter_partition_length {A} (f : A -> bool) (l : list A) :
  List.length l
  = (List.length (filter f l) + List.length (filter (fun x => negb (f x)) l))%nat.
Proof.
  induction l as [|a l IH]; [reflexivity|].
  cbn [filter]. destruct (f a); cbn [negb List.length]; lia.
Qed.

(** What an answer of [analyze_counterfeit_detection] is made of. *)
Lemma analyze_counterfeit_detection_inr w db bs product_id qr location u a :
  analyze_counterfeit_detection w db bs product_id qr location u = inr a ->
  exists product l' history,
    find (fun p => (Product.id p =? product_id)%Z) (products db) = Some product
    /\ analyze_ledger bs qr location u product
         {| analyzed := detect_counterfeit w db product (analyze_data location u) qr;
            blockchain_analysis := NoAnalysis |} = (inr tt, l')
    /\ Analysis.detection_result a = analyzed l'
    /\ Analysis.total_verifications a = List.length history
    /\ Analysis.authentic_verifications a
       = List.length (filter Verification.is_authentic history)
    /\ Analysis.counterfeit_verifications a
       = List.length (filter (fun v => negb (Verification.is_authentic v)) history)
    /\ Analysis.suspicious_patterns a
       = (if (50 <? List.length history)%nat
          then ["Excessive verification attempts"] else [])
         ++ (if (0 <? Analysis.counterfeit_verifications a)%nat
             then ["Previous counterfeit detections"] else [])
    /\ Analysis.risk_score a
       = Nat.min 100
           ((List.length (detection_reasons (analyzed l'))
             + List.length (Analysis.suspicious_patterns a)) * 20)
    /\ Analysis.risk_level a
       = (if (Analysis.risk_score a <? 30)%nat then "Low"
          else if (Analysis.risk_score a <? 70)%nat then "Medium" else "High")
    /\ Analysis.recommendation a
       = get_risk_recommendation (Analysis.risk_score a) (is_authentic (analyzed l')).
Proof.
  unfold analyze_counterfeit_detection, run.
  destruct (raises db ProductFirst); cbn [raise ret bind]; [discriminate|].
  destruct (find _ (products db)) as [product|]; [|discriminate].
  match goal with
  | |- context [analyze_ledger bs qr location u product ?l] =>
      destruct (analyze_ledger_reasons bs qr location u product l) as (l' & E & _)
  end.
  rewrite E.
  destruct (raises db VerificationHistoryAll); cbn [raise ret bind]; [discriminate|].
  intros H. injection H as <-.
  exists product, l', (filter (fun v => (Verification.product_id v =? product_id)%Z)
                              (verifications db)).
  cbn [Analysis.detection_result Analysis.total_verifications
       Analysis.authentic_verifications Analysis.counterfeit_verifications
       Analysis.suspicious_patterns Analysis.risk_score Analysis.risk_level
       Analysis.recommendation].
  split; [reflexivity|]. split; [exact E|].
  do 4 (split; [reflexivity|]).
  split; [destruct (50 <? _)%nat; destruct (0 <? _)%nat; reflexivity|].
  split; [reflexivity|]. split; reflexivity.
Qed.

(** X11.  In every answer of [analyze_counterfeit_detection] the risk score
    is 20, 40, 60, 80 or 100, the history splits into the authentic and
    the counterfeit verifications, and for a positive verdict the
    recommendation names the risk level of the answer.  When the detection
    ran without an exception its seven checks alone give seven reasons,
    so the score is 100 and the level "High" whatever the verdict: a
    positive verdict is then answered with the high-risk
    recommendation. *)
Theorem analysis_risk_assessment :
  forall w db bs product_id qr location u a,
    analyze_counterfeit_detection w db bs product_id qr location u = inr a ->
    (exists k, (1 <= k <= 5)%nat /\ Analysis.risk_score a = (20 * k)%nat)
    /\ Analysis.total_verifications a
       = (Analysis.authentic_verifications a + Analysis.counterfeit_verifications a)%nat
    /\ (is_authentic (Analysis.detection_result a) = true ->
        exists advice,
          Analysis.recommendation a
          = Analysis.risk_level a +++ " risk product. " +++ advice)
    /\ (is_authentic (Analysis.detection_result a) = false ->
        Analysis.recommendation a
        = "Product appears to be counterfeit. Do not purchase or use.")
    /\ (forall product r,
           find (fun p => (Product.id p =? product_id)%Z) (products db) = Some product ->
           detect_counterfeit_try w db product (analyze_data location u) qr = inr r ->
           Analysis.risk_score a = 100%nat
           /\ Analysis.risk_level a = "High"
           /\ Analysis.recommendation a
              = if is_authentic (Analysis.detection_result a)
                then "High risk product. Exercise extreme caution and verify through official channels."
                else "Product appears to be counterfeit. Do not purchase or use.").
Proof.
  intros w db bs product_id qr location u a E.
  destruct (analyze_counterfeit_detection_inr _ _ _ _ _ _ _ _ E)
    as (product & l' & history & Hfind & Hl & Hr & Ht & Ha & Hc & Hp & Hs & Hlv
        & Hrec).
  destruct (analyze_ledger_reasons bs qr location u product
              {| analyzed := detect_counterfeit w db product (analyze_data location u) qr;
                 blockchain_analysis := NoAnalysis |}) as (l'' & Hl'' & Hlen).
  rewrite Hl in Hl''. injection Hl'' as <-. cbn [analyzed] in Hlen.
  pose proof (detect_counterfeit_reasons_length w db product (analyze_data location u) qr)
    as Hone.
  set (n := (List.length (detection_reasons (analyzed l'))
             + List.length (Analysis.suspicious_patterns a))%nat) in *.
  assert (Hn : (1 <= n)%nat) by (unfold n; lia).
  assert (Hk : exists k, (1 <= k <= 5)%nat /\ Analysis.risk_score a = (20 * k)%nat).
  { rewrite Hs. destruct (Nat.le_gt_cases 5 n) as [H5|H5].
    - exists 5%nat. split; [lia|]. rewrite Nat.min_l; lia.
    - exists n. split; [lia|]. rewrite Nat.min_r; lia. }
  split; [exact Hk|].
  split; [rewrite Ht, Ha, Hc; apply filter_partition_length|].
  split.
  { intros Hauth. rewrite Hr in Hauth. rewrite Hrec, Hlv, Hauth.
    destruct Hk as (k & Hk & ->).
    destruct k as [|[|[|[|[|[|k]]]]]]; try lia; cbn; eexists; reflexivity. }
  split.
  { intros Hauth. rewrite Hr in Hauth. rewrite Hrec, Hauth. reflexivity. }
  intros product' r Hfind' Etry.
  rewrite Hfind in Hfind'. injection Hfind' as <-.
  pose proof (detect_counterfeit_try_reasons_length _ _ _ _ _ _ Etry) as H7.
  rewrite <- (detect_counterfeit_returned _ _ _ _ _ _ Etry) in H7.
  assert (H100 : Analysis.risk_score a = 100%nat).
  { rewrite Hs. apply Nat.min_l. unfold n. lia. }
  split; [exact H100|].
  rewrite Hlv, Hrec, Hr, H100.
  split; [reflexivity|].
  destruct (is_authentic (analyzed l')); reflexivity.
Qed.

Lemma analysis_risk_assessment_witness :
  exists a,
    analyze_counterfeit_detection sample_world (shop [widget] [maker])
      denying_ledger 1 (Some sha_a) (Some "Shop") unverified_maker = inr a
    /\ Analysis.risk_score a = 100%nat
    /\ Analysis.risk_level a = "High".
Proof.
  destruct (analyze_counterfeit_detection sample_world (shop [widget] [maker])
              denying_ledger 1 (Some sha_a) (Some "Shop") unverified_maker)
    as [e|a] eqn:H; [vm_compute in H; discriminate H|].
  exists a. split; [reflexivity|].
  destruct (analysis_risk_assessment _ _ _ _ _ _ _ _ H) as (_ & _ & _ & _ & Hhigh).
  destruct (detect_counterfeit_try sample_world (shop [widget] [maker]) widget
              (analyze_data (Some "Shop") unverified_maker) (Some sha_a))
    as [e|r] eqn:Etry; [vm_compute in Etry; discriminate Etry|].
  destruct (Hhigh widget r eq_refl Etry) as (Hs & Hl & _).
  split; assumption.
Defined.

(** The ledger block of [create_verification] changes the verdict and the
    ledger columns of the row only. *)
Lemma create_verification_ledger_keeps db bs vin u product (l : Locals) :
  exists l',
    create_verification_ledger db bs vin u product l = (inr tt, l')
    /\ Verification.product_id (db_verification l')
       = Verification.product_id (db_verification l)
    /\ Verification.verifier_id (db_verification l')
       = Verification.verifier_id (db_verification l)
    /\ Verification.confidence_score (db_verification l')
       = Verification.confidence_score (db_verification l)
    /\ Verification.risk_level (db_verification l')
       = Verification.risk_level (db_verification l)
    /\ Verification.detection_reasons (db_verification l')
       = Verification.detection_reasons (db_verification l)
    /\ confidence_score (detection_result l') = confidence_score (detection_result l)
    /\ risk_level (detection_result l') = risk_level (detection_result l)
    /\ (Verification.blockchain_verified (db_verification l) = false ->
        Verification.blockchain_verified (db_verification l') = true ->
        raises db CommitLedger = None
        /\ exists res,
             create_verification_call bs vin u product = inr res
             /\ bc_success res = Some true
             /\ Verification.blockchain_verification_id (db_verification l')
                = bc_verification_id res).
Proof.
  unfold create_verification_ledger, commit_ledger, try_except, st_bind, lift,
    modify, st_ret.
  destruct (truthy_str (User.wallet_address u)); cbn [andb];
    [destruct (truthy_int (Product.blockchain_id product))|];
    [destruct (create_verification_call bs vin u product) as [e|res];
     [|destruct (bc_success res) as [[|]|] eqn:Es; cbn [get_bool];
       [destruct (negb (get_bool (bc_verification_result res) true));
        destruct (raises db CommitLedger) eqn:Ec|..]]|..];
    (eexists; split; [reflexivity|]);
    cbn [on_row on_result set_row_is_authentic set_row_ledger set_is_authentic
         append_reason detection_result db_verification rolled_back
         confidence_score risk_level
         Verification.product_id Verification.verifier_id
         Verification.confidence_score Verification.risk_level
         Verification.detection_reasons Verification.blockchain_verified
         Verification.blockchain_verification_id];
    do 7 (split; [reflexivity|]);
    intros H0 H1; try congruence;
    (split; [reflexivity|]); exists res;
    (split; [reflexivity|split; [exact Es|reflexivity]]).
Qed.



(** X13.  The endpoints fail only on a missing product, with the 404 error,
    or on a failing statement of the database, with its error: neither
    the detection nor the ledger service makes them fail.  A product id
    that no product has is answered with the 404 error. *)
Theorem endpoints_fail_only_on_the_database :
  forall w db bs vin u product_id qr location,
    (forall e,
        create_verification w db bs vin u = inl e ->
        (find (fun p => (Product.id p =? VerificationCreate.product_id vin)%Z)
              (products db) = None
         /\ e = "404: Product not found")
        \/ exists q, raises db q = Some e)
    /\ (forall e,
           analyze_counterfeit_detection w db bs product_id qr location u = inl e ->
           (find (fun p => (Product.id p =? product_id)%Z) (products db) = None
            /\ e = "404: Product not found")
           \/ exists q, raises db q = Some e)
    /\ (raises db ProductFirst = None ->
        (forall p, In p (products db) -> Product.id p <> product_id) ->
        VerificationCreate.product_id vin = product_id ->
        create_verification w db bs vin u = inl "404: Product not found"
        /\ analyze_counterfeit_detection w db bs product_id qr location u
           = inl "404: Product not found").
Proof.
  intros w db bs vin u product_id qr location.
  split; [|split].
  - intros e. unfold create_verification, run.
    destruct (raises db ProductFirst) eqn:E1; cbn [raise ret bind];
      [intros H; injection H as <-; right; eexists; exact E1|].
    destruct (find _ (products db)) as [product|];
      [|intros H; injection H as <-; left; split; reflexivity].
    destruct (raises db CommitVerification) eqn:E2; cbn [raise ret bind];
      [intros H; injection H as <-; right; eexists; exact E2|].
    match goal with
    | |- context [create_verification_ledger db bs vin u product ?l] =>
        destruct (create_verification_ledger_keeps db bs vin u product l)
          as (l' & -> & _)
    end.
    destruct (rolled_back l'); [|discriminate].
    destruct (raises db RefreshAfterRollback) eqn:E3; cbn [raise ret];
      [intros H; injection H as <-; right; eexists; exact E3|discriminate].
  - intros e. unfold analyze_counterfeit_detection, run.
    destruct (raises db ProductFirst) eqn:E1; cbn [raise ret bind];
      [intros H; injection H as <-; right; eexists; exact E1|].
    destruct (find _ (products db)) as [product|];
      [|intros H; injection H as <-; left; split; reflexivity].
    match goal with
    | |- context [analyze_ledger bs qr location u product ?l] =>
        destruct (analyze_ledger_reasons bs qr location u product l) as (l' & -> & _)
    end.
    destruct (raises db VerificationHistoryAll) eqn:E2; cbn [raise ret bind];
      [intros H; injection H as <-; right; eexists; exact E2|discriminate].
  - intros Hq Hnone Hid.
    assert (Hfind : find (fun p => (Product.id p =? product_id)%Z) (products db) = None).
    { destruct (find _ (products db)) as [p|] eqn:E; [|reflexivity].
      apply find_some in E. destruct E as [Hin Heq].
      apply Z.eqb_eq in Heq. destruct (Hnone p Hin Heq). }
    unfold create_verification, analyze_counterfeit_detection, run.
    rewrite Hq, Hid, Hfind. split; reflexivity.
Qed.

Lemma endpoints_fail_only_on_the_database_witness :
  create_verification sample_world (shop [widget] [maker]) denying_ledger
    (VerificationCreate.mk "Shop" None 99 None) maker
  = inl "404: Product not found"
  /\ analyze_counterfeit_detection sample_world (shop [widget] [maker])
       denying_ledger 99 None (Some "Shop") maker
     = inl "404: Product not found".
Proof.
  destruct (endpoints_fail_only_on_the_database sample_world (shop [widget] [maker])
              denying_ledger (VerificationCreate.mk "Shop" None 99 None) maker
              99%Z None (Some "Shop")) as (_ & _ & H).
  apply H; [reflexivity| |reflexivity].
  intros p [<-|[]]. vm_compute. intros E. discriminate E.
Defined.
